(** * The multi-platform publishing orchestrator

    A shallow embedding of the publishing core of the social-media
    backend: the dispatcher and its four platform services
    ([services/social_media_service.py]), the posting-time advisor of the
    same file, the content generator ([services/ai_service.py]) and the
    routes that write post records ([routes/media.py], over the columns of
    [models/media.py]).

    Python values are embedded as [PyVal]; a [dict] with string keys is a
    [gmap string PyVal].  A [str] is kept as its UTF-8 text: a character
    is a lead byte with the continuation bytes that follow it, and the
    operations that count characters ([len], slices) count lead bytes.
    An exception is a value of [Outcome].  What the
    code reads from its environment (the clock, the text-generation call)
    is an argument of the embedded function; the library functions whose
    results the code only passes along are the fields of [Runtime]. *)

From stdpp Require Import gmap strings list fin_maps pretty.
From Stdlib Require Import ZArith Ascii Lia.

Set Warnings "-register-all".
Open Scope Z_scope.

(** ** Python values *)

Inductive PyVal : Type :=
| PyNone
| PyBool (b : bool)
| PyInt (n : Z)
| PyStr (s : string)
| PyList (l : list PyVal)
| PyDict (d : gmap string PyVal).

Abbreviation dict := (gmap string PyVal).

(** A [dict] display in the order of the source; the keys of every display
    of the program are pairwise distinct. *)
Abbreviation mkdict l := (list_to_map l : gmap string PyVal) (only parsing).

(** The result of a call that may raise: the value, or the exception's
    message. *)
Inductive Outcome (A : Type) : Type :=
| Return (a : A)
| Raise (msg : string).
Arguments Return {A} a.
Arguments Raise {A} msg.

Module Py.

(** Truth value of an object ([if x], [not x], [x or y], [all]). *)
Definition truthy (v : PyVal) : bool :=
  match v with
  | PyNone => false
  | PyBool b => b
  | PyInt n => negb (n =? 0)
  | PyStr s => negb (String.eqb s "")
  | PyList l => match l with [] => false | _ => true end
  | PyDict d => match map_to_list d with [] => false | _ => true end
  end.

(** [d.get(k, default)] and [d.get(k)]. *)
Definition get_default (d : dict) (k : string) (default : PyVal) : PyVal :=
  match d !! k with
  | Some v => v
  | None => default
  end.

Definition get (d : dict) (k : string) : PyVal := get_default d k PyNone.

(** [a or b]. *)
Definition or (a b : PyVal) : PyVal := if truthy a then a else b.

(** [all(l)]. *)
Definition all (l : list PyVal) : bool := forallb truthy l.

(** [s.lower()] on ASCII text: the 26 letters are lowered and every other
    byte is kept.  On text with other characters [str.lower] may change
    them; see [lower_text].  Of these characters it takes none into an
    ASCII letter but the Kelvin sign, into [k]: where the lowered text is
    only compared with words without [k] (the file extensions), [lower]
    decides the comparison as [str.lower] does. *)
Definition lower_char (c : ascii) : ascii :=
  let n := nat_of_ascii c in
  if ((65 <=? n) && (n <=? 90))%nat then ascii_of_nat (n + 32) else c.

Fixpoint lower (s : string) : string :=
  match s with
  | EmptyString => EmptyString
  | String c s' => String (lower_char c) (lower s')
  end.

(** [s.split(sep)] for a separator of one character: the pieces between
    the separators, always at least one piece. *)
Fixpoint split (sep : ascii) (s : string) : list string :=
  match s with
  | EmptyString => [EmptyString]
  | String c s' =>
      if Ascii.eqb c sep then EmptyString :: split sep s'
      else match split sep s' with
           | piece :: rest => String c piece :: rest
           | [] => [String c EmptyString]
           end
  end.

(** [l[-1]] of a list of strings (of [split], never empty). *)
Definition last_piece (l : list string) : string := List.last l EmptyString.

(** [x in l] for a list display of strings. *)
Definition in_list (x : string) (l : list string) : bool :=
  existsb (String.eqb x) l.

(** A continuation byte of a UTF-8 character ([10xxxxxx]); every other
    byte starts a character. *)
Definition is_continuation (c : ascii) : bool :=
  let n := nat_of_ascii c in ((128 <=? n) && (n <? 192))%nat.

(** [len(s)]: the number of characters. *)
Fixpoint len (s : string) : nat :=
  match s with
  | EmptyString => O
  | String c s' => if is_continuation c then len s' else S (len s')
  end.

(** [s[:n]]: the first [n] characters, each with all its bytes. *)
Fixpoint take_chars (n : nat) (s : string) : string :=
  match s with
  | EmptyString => EmptyString
  | String c s' =>
      if is_continuation c then String c (take_chars n s')
      else match n with
           | O => EmptyString
           | S n' => String c (take_chars n' s')
           end
  end.

(** Text of ASCII characters only. *)
Fixpoint is_ascii (s : string) : bool :=
  match s with
  | EmptyString => true
  | String c s' => (nat_of_ascii c <? 128)%nat && is_ascii s'
  end.

(** [s * n]. *)
Fixpoint repeat (s : string) (n : nat) : string :=
  match n with
  | O => EmptyString
  | S n' => s +:+ repeat s n'
  end.

(** [s.replace(old, new)] for [old] of one character. *)
Fixpoint replace_char (old : ascii) (new : string) (s : string) : string :=
  match s with
  | EmptyString => EmptyString
  | String c s' =>
      if Ascii.eqb c old then new +:+ replace_char old new s'
      else String c (replace_char old new s')
  end.

End Py.

(** ** [datetime] and [timedelta]

    A naive [datetime] carries its calendar date and its clock fields.
    None of the operations the program uses looks into the date beyond
    its order and its day count, so the date is kept as its proleptic
    ordinal ([date.toordinal()]); the year range of the library is not
    modelled. *)

Module timedelta.

Record t : Type := mk { days : Z; seconds : Z; microseconds : Z }.

(** [timedelta(days, seconds, microseconds, minutes=, hours=)], normalised
    so that [0 <= seconds < 86400] and [0 <= microseconds < 10**6]. *)
Definition new (days seconds microseconds minutes hours : Z) : t :=
  let s := seconds + 60 * minutes + 3600 * hours + microseconds / 1000000 in
  {| days := days + s / 86400;
     seconds := s mod 86400;
     microseconds := microseconds mod 1000000 |}.

Definition add (a b : t) : t :=
  new (days a + days b) (seconds a + seconds b)
      (microseconds a + microseconds b) 0 0.

Definition of_hours (h : Z) : t := new 0 0 0 0 h.
Definition of_days (d : Z) : t := new d 0 0 0 0.

Definition total_us (d : t) : Z :=
  (days d * 86400 + seconds d) * 1000000 + microseconds d.

End timedelta.

Module datetime.

Record t : Type :=
  mk { ordinal : Z; hour : Z; minute : Z; second : Z; microsecond : Z }.

(** The values the library constructs. *)
Definition wf (d : t) : Prop :=
  0 <= hour d < 24 /\ 0 <= minute d < 60 /\ 0 <= second d < 60 /\
  0 <= microsecond d < 1000000.

(** [self + other]: through a [timedelta] of the date's ordinal and the
    clock fields, split again by [divmod]. *)
Definition add (self : t) (other : timedelta.t) : t :=
  let delta :=
    timedelta.add
      (timedelta.new (ordinal self) (second self) (microsecond self)
                     (minute self) (hour self))
      other in
  let rem := timedelta.seconds delta mod 3600 in
  {| ordinal := timedelta.days delta;
     hour := timedelta.seconds delta / 3600;
     minute := rem / 60;
     second := rem mod 60;
     microsecond := timedelta.microseconds delta |}.

(** [self.replace(hour=h, minute=m, second=s, microsecond=us)]. *)
Definition replace_clock (self : t) (h m s us : Z) : t :=
  {| ordinal := ordinal self; hour := h; minute := m; second := s;
     microsecond := us |}.

(** [a <= b]: the comparison of the field tuples, most significant first. *)
Definition cmp (a b : t) : comparison :=
  match ordinal a ?= ordinal b with
  | Eq =>
      match hour a ?= hour b with
      | Eq =>
          match minute a ?= minute b with
          | Eq =>
              match second a ?= second b with
              | Eq => microsecond a ?= microsecond b
              | c => c
              end
          | c => c
          end
      | c => c
      end
  | c => c
  end.

Definition leb (a b : t) : bool :=
  match cmp a b with
  | Gt => false
  | _ => true
  end.

(** Microseconds from the start of day 0: the position on the time line. *)
Definition to_us (d : t) : Z :=
  (((ordinal d * 24 + hour d) * 60 + minute d) * 60 + second d) * 1000000
  + microsecond d.

End datetime.

(** ** Library functions taken as given

    [repr] is [repr()] on the values that are not strings; [str_lower] is
    [str.lower()] on text that holds other characters than ASCII;
    [isoformat], [timestamp] and [fromisoformat] are the methods of
    [datetime] ([float] is the type of Python's floating-point numbers,
    [int_of_float] the built-in [int] on them; [timestamp] raises on the
    times the platform cannot convert); [json_dumps] and [json_loads] are
    the encoder and decoder of the [json] module. *)

(** What [json.loads] does with a text: the decoded value, a
    [JSONDecodeError], or another exception (a [RecursionError] on text
    nested too deep). *)
Inductive Decoding : Type :=
| Decoded (v : PyVal)
| JSONDecodeError (msg : string)
| DecodingFailed (msg : string).

Class Runtime : Type := {
  repr : PyVal -> string;
  str_lower : string -> string;
  float : Type;
  isoformat : datetime.t -> string;
  timestamp : datetime.t -> Outcome float;
  int_of_float : float -> Z;
  fromisoformat : string -> Outcome datetime.t;
  json_dumps : PyVal -> string;
  json_loads : string -> Decoding;
}.

(** [s.lower()] on any text. *)
Definition lower_text `{Runtime} (s : string) : string :=
  if Py.is_ascii s then Py.lower s else str_lower s.

(** [str(v)], as a replacement field of an f-string formats [v]. *)
Definition py_str `{Runtime} (v : PyVal) : string :=
  match v with
  | PyStr s => s
  | _ => repr v
  end.

(** ** The platform services ([services/social_media_service.py])

    Every service offers the same three methods.  The requests a service
    prepares are local variables of its methods; they are embedded under
    the names of these variables, next to the method that builds them. *)

Module Adapter.
Record t : Type := mk {
  upload_media : string -> dict -> string -> Outcome dict;
  schedule_media : string -> dict -> string -> datetime.t -> Outcome dict;
  get_status : string -> string -> Outcome dict;
}.
End Adapter.

(** [file_extension = media_file_path.split('.')[-1].lower()] and
    [is_video = file_extension in ['mp4', 'mov', 'avi']], as the Instagram,
    Facebook and TikTok services compute them. *)
Definition file_extension (media_file_path : string) : string :=
  Py.lower (Py.last_piece (Py.split "." media_file_path)).

Definition is_video (media_file_path : string) : bool :=
  Py.in_list (file_extension media_file_path) ["mp4"; "mov"; "avi"].

Module YouTubeService.

Definition api_base : string := "https://www.googleapis.com/youtube/v3".

Definition video_metadata (metadata : dict) : dict :=
  mkdict [
    ("snippet", PyDict (mkdict [
       ("title", Py.get_default metadata "title" (PyStr "Untitled Video"));
       ("description", Py.get_default metadata "description" (PyStr ""));
       ("tags", Py.get_default metadata "hashtags" (PyList []));
       ("categoryId", Py.get_default metadata "category" (PyStr "22"))]));
    ("status", PyDict (mkdict [
       ("privacyStatus", Py.get_default metadata "privacy" (PyStr "private"))]))].

Definition upload_media (media_file_path : string) (metadata : dict)
    (access_token : string) : Outcome dict :=
  let _ := video_metadata metadata in
  Return (mkdict [
    ("success", PyBool true);
    ("platform", PyStr "youtube");
    ("video_id", PyStr "mock_youtube_video_id");
    ("url", PyStr "https://youtube.com/watch?v=mock_video_id");
    ("message", PyStr "Video uploaded successfully to YouTube")]).

Definition schedule_media `{Runtime} (media_file_path : string)
    (metadata : dict) (access_token : string) (scheduled_time : datetime.t)
    : Outcome dict :=
  Return (mkdict [
    ("success", PyBool true);
    ("platform", PyStr "youtube");
    ("scheduled_id", PyStr "mock_youtube_scheduled_id");
    ("scheduled_time", PyStr (isoformat scheduled_time));
    ("message", PyStr "Video scheduled for YouTube upload")]).

Definition get_status (upload_id access_token : string) : Outcome dict :=
  Return (mkdict [
    ("success", PyBool true);
    ("platform", PyStr "youtube");
    ("status", PyStr "completed");
    ("upload_id", PyStr upload_id)]).

Definition service `{Runtime} : Adapter.t :=
  Adapter.mk upload_media schedule_media get_status.

End YouTubeService.

Module InstagramService.

Definition container_data (media_file_path : string) (metadata : dict)
    (access_token : string) : dict :=
  let container_data := mkdict [
    ("access_token", PyStr access_token);
    ("caption", Py.get_default metadata "description" (PyStr ""))] in
  if is_video media_file_path then
    <["media_type" := PyStr "VIDEO"]>
      (<["video_url" := Py.get metadata "media_url"]> container_data)
  else
    <["image_url" := Py.get metadata "media_url"]> container_data.

Definition publish_data (access_token : string) : dict :=
  mkdict [
    ("creation_id", PyStr "mock_instagram_container_id");
    ("access_token", PyStr access_token)].

Definition upload_media (media_file_path : string) (metadata : dict)
    (access_token : string) : Outcome dict :=
  let _ := container_data media_file_path metadata access_token in
  let _ := publish_data access_token in
  Return (mkdict [
    ("success", PyBool true);
    ("platform", PyStr "instagram");
    ("media_id", PyStr "mock_instagram_media_id");
    ("url", PyStr "https://instagram.com/p/mock_media_id");
    ("message", PyStr "Media uploaded successfully to Instagram")]).

Definition schedule_media `{Runtime} (media_file_path : string)
    (metadata : dict) (access_token : string) (scheduled_time : datetime.t)
    : Outcome dict :=
  Return (mkdict [
    ("success", PyBool true);
    ("platform", PyStr "instagram");
    ("scheduled_id", PyStr "mock_instagram_scheduled_id");
    ("scheduled_time", PyStr (isoformat scheduled_time));
    ("message", PyStr "Media scheduled for Instagram upload")]).

Definition get_status (upload_id access_token : string) : Outcome dict :=
  Return (mkdict [
    ("success", PyBool true);
    ("platform", PyStr "instagram");
    ("status", PyStr "completed");
    ("upload_id", PyStr upload_id)]).

Definition service `{Runtime} : Adapter.t :=
  Adapter.mk upload_media schedule_media get_status.

End InstagramService.

Module FacebookService.

Definition api_base : string := "https://graph.facebook.com".
Definition api_version : string := "v23.0".

Definition page_id (metadata : dict) : PyVal :=
  Py.get_default metadata "page_id" (PyStr "mock_page_id").

Definition endpoint `{Runtime} (media_file_path : string) (metadata : dict)
    : string :=
  if is_video media_file_path then
    api_base +:+ "/" +:+ api_version +:+ "/" +:+ py_str (page_id metadata)
      +:+ "/videos"
  else
    api_base +:+ "/" +:+ api_version +:+ "/" +:+ py_str (page_id metadata)
      +:+ "/photos".

Definition post_data (media_file_path : string) (metadata : dict)
    (access_token : string) : dict :=
  if is_video media_file_path then
    mkdict [
      ("description", Py.get_default metadata "description" (PyStr ""));
      ("access_token", PyStr access_token)]
  else
    mkdict [
      ("url", Py.get metadata "media_url");
      ("message", Py.get_default metadata "description" (PyStr ""));
      ("access_token", PyStr access_token)].

Definition upload_media `{Runtime} (media_file_path : string)
    (metadata : dict) (access_token : string) : Outcome dict :=
  let _ := endpoint media_file_path metadata in
  let _ := post_data media_file_path metadata access_token in
  Return (mkdict [
    ("success", PyBool true);
    ("platform", PyStr "facebook");
    ("post_id", PyStr "mock_facebook_post_id");
    ("url", PyStr ("https://facebook.com/" +:+ py_str (page_id metadata)
                     +:+ "/posts/mock_post_id"));
    ("message", PyStr "Media uploaded successfully to Facebook")]).

(** The request of the native scheduling of Facebook, [post_data], for
    the value [scheduled_time.timestamp()] returned. *)
Definition schedule_post_data `{Runtime} (metadata : dict)
    (access_token : string) (stamp : float) : dict :=
  mkdict [
    ("message", Py.get_default metadata "description" (PyStr ""));
    ("published", PyStr "false");
    ("scheduled_publish_time", PyInt (int_of_float stamp));
    ("access_token", PyStr access_token)].

(** The body of [schedule_media]: the [post_data] it has built (none when
    [timestamp] raised on the way), and what it returns; an exception in
    the body is answered by the [except] of the method. *)
Definition schedule_media_run `{Runtime} (media_file_path : string)
    (metadata : dict) (access_token : string) (scheduled_time : datetime.t)
    : option dict * Outcome dict :=
  match timestamp scheduled_time with
  | Raise e =>
      (None,
       Return (mkdict [
         ("success", PyBool false);
         ("error", PyStr ("Facebook scheduling failed: " +:+ e))]))
  | Return stamp =>
      (Some (schedule_post_data metadata access_token stamp),
       Return (mkdict [
         ("success", PyBool true);
         ("platform", PyStr "facebook");
         ("scheduled_id", PyStr "mock_facebook_scheduled_id");
         ("scheduled_time", PyStr (isoformat scheduled_time));
         ("message", PyStr "Media scheduled for Facebook upload")]))
  end.

Definition schedule_media `{Runtime} (media_file_path : string)
    (metadata : dict) (access_token : string) (scheduled_time : datetime.t)
    : Outcome dict :=
  (schedule_media_run media_file_path metadata access_token
     scheduled_time).2.

Definition get_status (upload_id access_token : string) : Outcome dict :=
  Return (mkdict [
    ("success", PyBool true);
    ("platform", PyStr "facebook");
    ("status", PyStr "completed");
    ("upload_id", PyStr upload_id)]).

Definition service `{Runtime} : Adapter.t :=
  Adapter.mk upload_media schedule_media get_status.

End FacebookService.

Module TikTokService.

Definition api_base : string := "https://open.tiktokapis.com".
Definition api_version : string := "v2".

Definition endpoint (media_file_path : string) : string :=
  if is_video media_file_path then
    api_base +:+ "/" +:+ api_version +:+ "/post/publish/video/init/"
  else
    api_base +:+ "/" +:+ api_version +:+ "/post/publish/content/init/".

Definition post_data (media_file_path : string) (metadata : dict) : dict :=
  if is_video media_file_path then
    mkdict [
      ("post_info", PyDict (mkdict [
         ("title", Py.get_default metadata "title" (PyStr ""));
         ("privacy_level",
            Py.get_default metadata "privacy" (PyStr "PUBLIC_TO_EVERYONE"));
         ("disable_duet",
            Py.get_default metadata "disable_duet" (PyBool false));
         ("disable_comment",
            Py.get_default metadata "disable_comment" (PyBool false));
         ("disable_stitch",
            Py.get_default metadata "disable_stitch" (PyBool false));
         ("video_cover_timestamp_ms",
            Py.get_default metadata "cover_timestamp" (PyInt 1000))]));
      ("source_info", PyDict (mkdict [
         ("source", PyStr "PULL_FROM_URL");
         ("video_url", Py.get metadata "media_url")]))]
  else
    mkdict [
      ("post_info", PyDict (mkdict [
         ("title", Py.get_default metadata "title" (PyStr ""));
         ("description", Py.get_default metadata "description" (PyStr ""));
         ("privacy_level",
            Py.get_default metadata "privacy" (PyStr "PUBLIC_TO_EVERYONE"));
         ("disable_comment",
            Py.get_default metadata "disable_comment" (PyBool false));
         ("auto_add_music",
            Py.get_default metadata "auto_add_music" (PyBool true))]));
      ("source_info", PyDict (mkdict [
         ("source", PyStr "PULL_FROM_URL");
         ("photo_cover_index", PyInt 1);
         ("photo_images", PyList [Py.get metadata "media_url"])]));
      ("post_mode", PyStr "DIRECT_POST");
      ("media_type", PyStr "PHOTO")].

Definition upload_media (media_file_path : string) (metadata : dict)
    (access_token : string) : Outcome dict :=
  let _ := endpoint media_file_path in
  let _ := post_data media_file_path metadata in
  Return (mkdict [
    ("success", PyBool true);
    ("platform", PyStr "tiktok");
    ("publish_id", PyStr "mock_tiktok_publish_id");
    ("url", PyStr "https://tiktok.com/@user/video/mock_video_id");
    ("message", PyStr "Media uploaded successfully to TikTok")]).

Definition schedule_media `{Runtime} (media_file_path : string)
    (metadata : dict) (access_token : string) (scheduled_time : datetime.t)
    : Outcome dict :=
  Return (mkdict [
    ("success", PyBool true);
    ("platform", PyStr "tiktok");
    ("scheduled_id", PyStr "mock_tiktok_scheduled_id");
    ("scheduled_time", PyStr (isoformat scheduled_time));
    ("message", PyStr "Media scheduled for TikTok upload")]).

Definition get_status (upload_id access_token : string) : Outcome dict :=
  Return (mkdict [
    ("success", PyBool true);
    ("platform", PyStr "tiktok");
    ("status", PyStr "completed");
    ("upload_id", PyStr upload_id)]).

Definition service `{Runtime} : Adapter.t :=
  Adapter.mk upload_media schedule_media get_status.

End TikTokService.

(** ** The dispatcher: [SocialMediaService] *)

Module SocialMediaService.

Record t : Type := mk { platforms : gmap string Adapter.t }.

(** [__init__]: the four services under their lowercase names. *)
Definition init `{Runtime} : t :=
  {| platforms := list_to_map [
       ("youtube", YouTubeService.service);
       ("instagram", InstagramService.service);
       ("facebook", FacebookService.service);
       ("tiktok", TikTokService.service)] |}.

(** The service methods a dispatcher call runs, under the key of the
    service: the record of what reaches an adapter. *)
Inductive Call : Type :=
| UploadMedia (key : string)
| ScheduleMedia (key : string)
| GetStatus (key : string).

Definition unsupported (platform : string) : dict :=
  mkdict [
    ("success", PyBool false);
    ("error", PyStr ("Unsupported platform: " +:+ platform))].

(** The [except Exception as e] of the three methods. *)
Definition guarded (o : Outcome dict) : dict :=
  match o with
  | Return result => result
  | Raise e => mkdict [("success", PyBool false); ("error", PyStr e)]
  end.

Definition upload_to_platform (self : t) (platform media_file_path : string)
    (metadata : dict) (access_token : string) : list Call * dict :=
  match platforms self !! platform with
  | None => ([], unsupported platform)
  | Some service =>
      ([UploadMedia platform],
       guarded (Adapter.upload_media service media_file_path metadata
                  access_token))
  end.

Definition schedule_upload (self : t) (platform media_file_path : string)
    (metadata : dict) (access_token : string) (scheduled_time : datetime.t)
    : list Call * dict :=
  match platforms self !! platform with
  | None => ([], unsupported platform)
  | Some service =>
      ([ScheduleMedia platform],
       guarded (Adapter.schedule_media service media_file_path metadata
                  access_token scheduled_time))
  end.

Definition get_upload_status (self : t) (platform upload_id : string)
    (access_token : string) : list Call * dict :=
  match platforms self !! platform with
  | None => ([], unsupported platform)
  | Some service =>
      ([GetStatus platform],
       guarded (Adapter.get_status service upload_id access_token))
  end.

End SocialMediaService.

(** ** The posting-time advisor: [ViralTimeService] *)

Module ViralTimeService.

Definition slot (day time engagement : string) : PyVal :=
  PyDict (mkdict [
    ("day", PyStr day); ("time", PyStr time);
    ("engagement", PyStr engagement)]).

Definition optimal_times : gmap string (list PyVal) :=
  list_to_map [
    ("youtube", [
       slot "weekdays" "14:00-16:00" "high";
       slot "weekdays" "20:00-22:00" "high";
       slot "weekend" "09:00-11:00" "medium"]);
    ("instagram", [
       slot "weekdays" "11:00-13:00" "high";
       slot "weekdays" "19:00-21:00" "high";
       slot "weekend" "10:00-12:00" "medium"]);
    ("facebook", [
       slot "weekdays" "13:00-15:00" "high";
       slot "weekdays" "19:00-21:00" "high";
       slot "weekend" "12:00-14:00" "medium"]);
    ("tiktok", [
       slot "weekdays" "06:00-10:00" "high";
       slot "weekdays" "19:00-21:00" "high";
       slot "weekend" "07:00-09:00" "medium"])].

Definition get_optimal_times (platform : string) : list PyVal :=
  match optimal_times !! platform with
  | Some l => l
  | None => []
  end.

(** [now] is the value [datetime.now()] returns to the call. *)
Definition suggest_next_optimal_time (platform : string) (now : datetime.t)
    : datetime.t :=
  match get_optimal_times platform with
  | [] => datetime.add now (timedelta.of_hours 2)
  | _ =>
      let suggested_time := datetime.add now (timedelta.of_hours 2) in
      let hour := datetime.hour suggested_time in
      if (hour <? 11) || (hour >? 21) then
        let suggested_time := datetime.replace_clock suggested_time 11 0 0 0 in
        if datetime.leb suggested_time now then
          datetime.add suggested_time (timedelta.of_days 1)
        else suggested_time
      else suggested_time
  end.

End ViralTimeService.

(** ** The content generator: [AIService] ([services/ai_service.py]) *)

Module AIService.

(** [openai.api_key], as [os.getenv] left it. *)
Record t : Type := mk { api_key : option string }.

Definition has_key (self : t) : bool :=
  match api_key self with
  | Some k => negb (String.eqb k "")
  | None => false
  end.

Definition content (caption : string) (hashtags : list string)
    (suggested_time : string) : PyVal :=
  PyDict (mkdict [
    ("caption", PyStr caption);
    ("hashtags", PyList (PyStr <$> hashtags));
    ("suggested_time", PyStr suggested_time)]).

Definition _get_mock_social_content `{Runtime} (media_info : dict)
    (platform : string) : PyVal :=
  let file_type :=
    py_str (Py.get_default media_info "file_type" (PyStr "media")) in
  let platform_data : gmap string PyVal := list_to_map [
    ("youtube",
       content ("Check out this amazing " +:+ file_type +:+
                "! Don't forget to like and subscribe for more content like this. What do you think? Let me know in the comments below!")
         ["#YouTube"; "#Content"; "#Subscribe"; "#Like"; "#Share"]
         "Best times: 2-4 PM or 8-10 PM on weekdays");
    ("instagram",
       content ("✨ New " +:+ file_type +:+
                " alert! ✨ Swipe to see more and don't forget to double-tap if you love it! 💖")
         ["#Instagram"; "#InstaGood"; "#PhotoOfTheDay"; "#Content"; "#Viral"]
         "Peak engagement: 11 AM-1 PM or 7-9 PM");
    ("facebook",
       content ("Sharing this incredible " +:+ file_type +:+
                " with all my friends! What are your thoughts? Tag someone who would love this!")
         ["#Facebook"; "#Share"; "#Friends"; "#Content"; "#Viral"]
         "Best times: 1-3 PM or 7-9 PM");
    ("tiktok",
       content ("🔥 This " +:+ file_type +:+
                " is everything! Follow for more content like this! #fyp")
         ["#TikTok"; "#FYP"; "#Viral"; "#Trending"; "#ForYou"]
         "Peak hours: 6-10 AM or 7-9 PM")] in
  let default_content :=
    content ("Check out this amazing " +:+ file_type +:+
             "! Hope you enjoy it as much as I do. Let me know what you think!")
      ["#content"; "#viral"; "#trending"; "#social"; "#media"]
      "Peak engagement hours: 7-9 PM" in
  match platform_data !! lower_text platform with
  | Some c => c
  | None => default_content
  end.

(** [response] is what [openai.ChatCompletion.create] answers to the call:
    the text of the first choice, or an exception.  The prompt only feeds
    that call. *)
Definition generate_social_media_content `{Runtime} (self : t)
    (response : Outcome string) (media_info : dict) (platform : string)
    (custom_prompt : string) : PyVal :=
  if negb (has_key self) then _get_mock_social_content media_info platform
  else
    match response with
    | Raise _ => _get_mock_social_content media_info platform
    | Return ai_response =>
        match json_loads ai_response with
        | Decoded content_data => content_data
        | JSONDecodeError _ =>
            content (Py.take_chars 500 ai_response)
              ["#viral"; "#trending"; "#content"]
              "Peak hours: 7-9 PM"
        | DecodingFailed _ => _get_mock_social_content media_info platform
        end
    end.

End AIService.

(** ** Records and routes ([models/media.py], [routes/media.py])

    A post record is a row of the table of [SocialMediaPost], with the
    columns the class declares; the primary key is the key of the table.
    The routes construct their objects through the keyword constructor of
    the class. *)

Module Routes.

Record MediaFile : Type := {
  mf_user_id : Z;
  filename : string;
  original_filename : string;
  file_path : string;
  file_type : string;
  file_size : Z;
  mime_type : string;
  uploaded_at : datetime.t;
}.

(** A stored row of [SocialMediaPost], column by column; the columns
    declared [nullable=False] have their value. *)
Record SocialMediaPost : Type := {
  user_id : Z;
  media_file_id : Z;
  platform : string;
  title : PyVal;
  description : PyVal;
  hashtags : PyVal;
  scheduled_time : datetime.t;
  status : string;
  post_id : PyVal;
  posted_at : option datetime.t;
  error_message : option string;
  created_at : datetime.t;
  updated_at : datetime.t;
}.

Record DB : Type := {
  users : gset Z;
  media_files : gmap Z MediaFile;
  posts : gmap Z SocialMediaPost;
}.

(** The two clock reads of a request: [datetime.utcnow()] in the handler,
    and the column defaults ([default=], [onupdate=]) at the commit. *)
Record Clock : Type := { utcnow : datetime.t; commit_time : datetime.t }.

Inductive Response : Type :=
| Json (code : Z) (body : PyVal)
| Abort (code : Z)
| Empty (code : Z).

Definition error_body (msg : string) : PyVal :=
  PyDict (mkdict [("error", PyStr msg)]).

(** *** The mapped class

    The value of a keyword argument of the constructor. *)
Inductive Val : Type :=
| VInt (n : Z)
| VStr (s : string)
| VPy (v : PyVal)
| VTime (t : datetime.t).

(** The attributes the class [SocialMediaPost] declares: its columns, and
    the back reference [media_file] of [MediaFile.posts]. *)
Definition attributes : list string :=
  ["id"; "user_id"; "media_file_id"; "platform"; "title"; "description";
   "hashtags"; "scheduled_time"; "status"; "post_id"; "posted_at";
   "error_message"; "created_at"; "updated_at"; "media_file"].

(** The [TypeError] of the constructor. *)
Definition invalid_keyword (k : string) : string :=
  "'" +:+ k +:+ "' is an invalid keyword argument for SocialMediaPost".

(** The keyword constructor of a mapped class: it sets
    the keywords in turn and raises [TypeError] at the first one that is
    not an attribute of the class. *)
Fixpoint init (kwargs : list (string * Val)) : Outcome (gmap string Val) :=
  match kwargs with
  | [] => Return ∅
  | (k, v) :: rest =>
      if negb (Py.in_list k attributes) then Raise (invalid_keyword k)
      else match init rest with
           | Return attrs => Return (<[k := v]> attrs)
           | Raise e => Raise e
           end
  end.

Definition int_column (attrs : gmap string Val) (k : string) : option Z :=
  match attrs !! k with Some (VInt n) => Some n | _ => None end.

Definition str_column (attrs : gmap string Val) (k : string)
    : option string :=
  match attrs !! k with Some (VStr s) => Some s | _ => None end.

Definition time_column (attrs : gmap string Val) (k : string)
    : option datetime.t :=
  match attrs !! k with Some (VTime t) => Some t | _ => None end.

(** A column that takes any value; [None] when it was not set. *)
Definition py_column (attrs : gmap string Val) (k : string) : PyVal :=
  match attrs !! k with
  | Some (VPy v) => v
  | Some (VStr s) => PyStr s
  | Some (VInt n) => PyInt n
  | _ => PyNone
  end.

(** The [IntegrityError] of the commit. *)
Definition not_null (column : string) : string :=
  "NOT NULL constraint failed: social_media_post." +:+ column.

(** The row the commit writes for an object: the column defaults fill
    [status], [created_at] and [updated_at] where they were not set, and
    a [nullable=False] column without a value fails the commit.  The
    values of the text columns are written as they are given: what the
    database driver does with a value that is not a text is left out. *)
Definition row (clock : Clock) (attrs : gmap string Val)
    : Outcome SocialMediaPost :=
  match int_column attrs "user_id" with
  | None => Raise (not_null "user_id")
  | Some user_id =>
  match int_column attrs "media_file_id" with
  | None => Raise (not_null "media_file_id")
  | Some media_file_id =>
  match str_column attrs "platform" with
  | None => Raise (not_null "platform")
  | Some platform =>
  match time_column attrs "scheduled_time" with
  | None => Raise (not_null "scheduled_time")
  | Some scheduled_time =>
      Return
        {| user_id := user_id;
           media_file_id := media_file_id;
           platform := platform;
           title := py_column attrs "title";
           description := py_column attrs "description";
           hashtags := py_column attrs "hashtags";
           scheduled_time := scheduled_time;
           status := default "scheduled" (str_column attrs "status");
           post_id := py_column attrs "post_id";
           posted_at := time_column attrs "posted_at";
           error_message := str_column attrs "error_message";
           created_at :=
             default (commit_time clock) (time_column attrs "created_at");
           updated_at :=
             default (commit_time clock) (time_column attrs "updated_at") |}
  end end end end.

(** An object constructed and, at the commit, written. *)
Definition create (clock : Clock) (kwargs : list (string * Val))
    : Outcome SocialMediaPost :=
  match init kwargs with
  | Raise e => Raise e
  | Return attrs => row clock attrs
  end.

(** [db.session.add(post); db.session.commit()]: the row under the next
    key of the table, one more than the largest in use. *)
Definition new_id (db : DB) : Z :=
  1 + foldr Z.max 0 (map_to_list (posts db)).*1.

Definition add_post (db : DB) (post : SocialMediaPost) : DB :=
  {| users := users db; media_files := media_files db;
     posts := <[new_id db := post]> (posts db) |}.

Definition opt_truthy_Z (x : option Z) : bool :=
  match x with Some n => negb (n =? 0) | None => false end.

Definition opt_truthy_str (x : option string) : bool :=
  match x with Some s => negb (String.eqb s "") | None => false end.

Definition opt_iso `{Runtime} (d : option datetime.t) : PyVal :=
  match d with Some t => PyStr (isoformat t) | None => PyNone end.

Definition to_dict `{Runtime} (id : Z) (p : SocialMediaPost) : PyVal :=
  PyDict (mkdict [
    ("id", PyInt id);
    ("user_id", PyInt (user_id p));
    ("media_file_id", PyInt (media_file_id p));
    ("platform", PyStr (platform p));
    ("title", title p);
    ("description", description p);
    ("hashtags", hashtags p);
    ("scheduled_time", PyStr (isoformat (scheduled_time p)));
    ("status", PyStr (status p));
    ("post_id", post_id p);
    ("posted_at", opt_iso (posted_at p));
    ("error_message",
       match error_message p with Some e => PyStr e | None => PyNone end);
    ("created_at", PyStr (isoformat (created_at p)));
    ("updated_at", PyStr (isoformat (updated_at p)))]).

(** *** [POST /media/upload-to-platform] *)

Record UploadRequest : Type := {
  up_media_file_id : option Z;
  up_platform : option string;
  up_access_token : option string;
  up_metadata : option dict;
}.

Definition metadata_of (m : option dict) : dict :=
  match m with Some d => d | None => ∅ end.

(** The keywords the route hands the constructor after a successful
    upload, in the order of the call. *)
Definition published_kwargs `{Runtime} (clock : Clock)
    (media_file : MediaFile) (media_file_id : Z) (platform : string)
    (metadata result : dict) : list (string * Val) :=
  [("user_id", VInt (mf_user_id media_file));
   ("media_file_id", VInt media_file_id);
   ("platform", VStr platform);
   ("title", VPy (Py.get_default metadata "title" (PyStr "")));
   ("description", VPy (Py.get_default metadata "description" (PyStr "")));
   ("hashtags",
      VPy (PyStr (json_dumps
                    (Py.get_default metadata "hashtags" (PyList [])))));
   ("status", VStr "published");
   ("platform_post_id",
      VPy (Py.or (Py.or (Py.get result "post_id") (Py.get result "video_id"))
                 (Py.get result "media_id")));
   ("platform_url", VPy (Py.get_default result "url" (PyStr "")));
   ("published_at", VTime (utcnow clock))].

Definition upload_to_platform `{Runtime} (svc : SocialMediaService.t)
    (clock : Clock) (db : DB) (data : UploadRequest) : DB * Response :=
  if negb (opt_truthy_Z (up_media_file_id data)
           && opt_truthy_str (up_platform data)
           && opt_truthy_str (up_access_token data)) then
    (db, Json 400 (error_body
           "media_file_id, platform, and access_token are required"))
  else
    let media_file_id := default 0 (up_media_file_id data) in
    let platform := default "" (up_platform data) in
    let access_token := default "" (up_access_token data) in
    let metadata := metadata_of (up_metadata data) in
    match media_files db !! media_file_id with
    | None => (db, Abort 404)
    | Some media_file =>
        let result :=
          (SocialMediaService.upload_to_platform svc platform
             (file_path media_file) metadata access_token).2 in
        match result !! "success" with
        | None => (db, Json 500 (error_body "Upload failed: 'success'"))
        | Some success =>
            if Py.truthy success then
              match create clock
                      (published_kwargs clock media_file media_file_id
                         platform metadata result) with
              | Raise e =>
                  (db, Json 500 (error_body ("Upload failed: " +:+ e)))
              | Return post =>
                  (add_post db post,
                   Json 200 (PyDict (mkdict [
                     ("success", PyBool true);
                     ("platform", PyStr platform);
                     ("result", PyDict result);
                     ("post_id", PyInt (new_id db))])))
              end
            else (db, Json 400 (PyDict result))
        end
    end.

(** *** [POST /media/schedule-platform-upload] *)

Record ScheduleUploadRequest : Type := {
  su_media_file_id : option Z;
  su_platform : option string;
  su_access_token : option string;
  su_metadata : option dict;
  su_scheduled_time : option string;
}.

Definition scheduled_upload_kwargs `{Runtime} (media_file : MediaFile)
    (media_file_id : Z) (platform : string) (metadata result : dict)
    (scheduled_datetime : datetime.t) : list (string * Val) :=
  [("user_id", VInt (mf_user_id media_file));
   ("media_file_id", VInt media_file_id);
   ("platform", VStr platform);
   ("title", VPy (Py.get_default metadata "title" (PyStr "")));
   ("description", VPy (Py.get_default metadata "description" (PyStr "")));
   ("hashtags",
      VPy (PyStr (json_dumps
                    (Py.get_default metadata "hashtags" (PyList [])))));
   ("status", VStr "scheduled");
   ("scheduled_time", VTime scheduled_datetime);
   ("platform_post_id", VPy (Py.get result "scheduled_id"))].

Definition schedule_platform_upload `{Runtime} (svc : SocialMediaService.t)
    (clock : Clock) (db : DB) (data : ScheduleUploadRequest)
    : DB * Response :=
  if negb (opt_truthy_Z (su_media_file_id data)
           && opt_truthy_str (su_platform data)
           && opt_truthy_str (su_access_token data)
           && opt_truthy_str (su_scheduled_time data)) then
    (db, Json 400 (error_body
       "media_file_id, platform, access_token, and scheduled_time are required"))
  else
    let media_file_id := default 0 (su_media_file_id data) in
    let platform := default "" (su_platform data) in
    let access_token := default "" (su_access_token data) in
    let metadata := metadata_of (su_metadata data) in
    let scheduled_time := default "" (su_scheduled_time data) in
    match media_files db !! media_file_id with
    | None => (db, Abort 404)
    | Some media_file =>
        match fromisoformat (Py.replace_char "Z" "+00:00" scheduled_time) with
        | Raise e => (db, Json 500 (error_body ("Scheduling failed: " +:+ e)))
        | Return scheduled_datetime =>
            let result :=
              (SocialMediaService.schedule_upload svc platform
                 (file_path media_file) metadata access_token
                 scheduled_datetime).2 in
            match result !! "success" with
            | None =>
                (db, Json 500 (error_body "Scheduling failed: 'success'"))
            | Some success =>
                if Py.truthy success then
                  match create clock
                          (scheduled_upload_kwargs media_file media_file_id
                             platform metadata result scheduled_datetime) with
                  | Raise e =>
                      (db, Json 500
                             (error_body ("Scheduling failed: " +:+ e)))
                  | Return post =>
                      (add_post db post,
                       Json 200 (PyDict (mkdict [
                         ("success", PyBool true);
                         ("platform", PyStr platform);
                         ("result", PyDict result);
                         ("post_id", PyInt (new_id db))])))
                  end
                else (db, Json 400 (PyDict result))
            end
        end
    end.

(** *** [POST /media/schedule-post] *)

Record SchedulePostRequest : Type := {
  sp_user_id : option Z;
  sp_media_file_id : option Z;
  sp_platforms : list string;
  sp_title : option PyVal;
  sp_description : option PyVal;
  sp_hashtags : option PyVal;
  sp_scheduled_time : option string;
}.

(** [json.dumps(hashtags) if isinstance(hashtags, list) else hashtags]. *)
Definition hashtags_column `{Runtime} (data : SchedulePostRequest) : PyVal :=
  let hashtags := default (PyList []) (sp_hashtags data) in
  match hashtags with
  | PyList _ => PyStr (json_dumps hashtags)
  | _ => hashtags
  end.

(** The keywords of one post of the request; [status] is left to the
    column default. *)
Definition scheduled_kwargs `{Runtime} (data : SchedulePostRequest)
    (user_id media_file_id : Z) (platform : string)
    (scheduled_datetime : datetime.t) : list (string * Val) :=
  [("user_id", VInt user_id);
   ("media_file_id", VInt media_file_id);
   ("platform", VStr (lower_text platform));
   ("title", VPy (default (PyStr "") (sp_title data)));
   ("description", VPy (default (PyStr "") (sp_description data)));
   ("hashtags", VPy (hashtags_column data));
   ("scheduled_time", VTime scheduled_datetime)].

(** The row such a post becomes. *)
Definition scheduled_post `{Runtime} (clock : Clock)
    (data : SchedulePostRequest) (user_id media_file_id : Z)
    (platform : string) (scheduled_datetime : datetime.t)
    : SocialMediaPost :=
  {| user_id := user_id;
     media_file_id := media_file_id;
     platform := lower_text platform;
     title := default (PyStr "") (sp_title data);
     description := default (PyStr "") (sp_description data);
     hashtags := hashtags_column data;
     scheduled_time := scheduled_datetime;
     status := "scheduled";
     post_id := PyNone;
     posted_at := None;
     error_message := None;
     created_at := commit_time clock;
     updated_at := commit_time clock |}.

(** The loop over the requested platforms and the commit after it: the
    store after the additions and the created rows with their keys, in
    order; an exception on the way leaves nothing written. *)
Fixpoint add_scheduled `{Runtime} (clock : Clock) (data : SchedulePostRequest)
    (user_id media_file_id : Z) (scheduled_datetime : datetime.t)
    (platforms : list string) (db : DB)
    : Outcome (DB * list (Z * SocialMediaPost)) :=
  match platforms with
  | [] => Return (db, [])
  | platform :: rest =>
      match create clock
              (scheduled_kwargs data user_id media_file_id platform
                 scheduled_datetime) with
      | Raise e => Raise e
      | Return post =>
          match add_scheduled clock data user_id media_file_id
                  scheduled_datetime rest (add_post db post) with
          | Raise e => Raise e
          | Return (db', created) =>
              Return (db', (new_id db, post) :: created)
          end
      end
  end.

Definition schedule_post `{Runtime} (clock : Clock) (db : DB)
    (data : SchedulePostRequest) : DB * Response :=
  if negb (opt_truthy_Z (sp_user_id data)
           && opt_truthy_Z (sp_media_file_id data)
           && match sp_platforms data with [] => false | _ => true end
           && opt_truthy_str (sp_scheduled_time data)) then
    (db, Json 400 (error_body
       "user_id, media_file_id, platforms, and scheduled_time are required"))
  else
    let user_id := default 0 (sp_user_id data) in
    let media_file_id := default 0 (sp_media_file_id data) in
    let scheduled_time := default "" (sp_scheduled_time data) in
    if negb (bool_decide (user_id ∈ users db)) then
      (db, Json 404 (error_body "User not found"))
    else
      match media_files db !! media_file_id with
      | None => (db, Json 404 (error_body "Media file not found"))
      | Some media_file =>
          if negb (mf_user_id media_file =? user_id) then
            (db, Json 403 (error_body "Access denied to media file"))
          else
            match fromisoformat
                    (Py.replace_char "Z" "+00:00" scheduled_time) with
            | Raise e =>
                (db, Json 500 (error_body ("Failed to schedule post: " +:+ e)))
            | Return scheduled_datetime =>
                match add_scheduled clock data user_id media_file_id
                        scheduled_datetime (sp_platforms data) db with
                | Raise e =>
                    (db, Json 500
                           (error_body ("Failed to schedule post: " +:+ e)))
                | Return (db', created) =>
                    (db',
                     Json 201 (PyDict (mkdict [
                       ("message",
                          PyStr ("Successfully scheduled " +:+
                                 py_str (PyInt (Z.of_nat (length created)))
                                 +:+ " posts"));
                       ("posts",
                          PyList
                            ((fun ip => to_dict ip.1 ip.2) <$> created))])))
                end
            end
      end.

(** *** [DELETE /media/posts/<post_id>] *)

Definition cancelled (clock : Clock) (post : SocialMediaPost)
    : SocialMediaPost :=
  {| user_id := user_id post;
     media_file_id := media_file_id post;
     platform := platform post;
     title := title post;
     description := description post;
     hashtags := hashtags post;
     scheduled_time := scheduled_time post;
     status := "cancelled";
     post_id := post_id post;
     posted_at := posted_at post;
     error_message := error_message post;
     created_at := created_at post;
     updated_at := commit_time clock |}.

Definition cancel_post (clock : Clock) (db : DB) (post_id : Z)
    : DB * Response :=
  match posts db !! post_id with
  | None => (db, Abort 404)
  | Some post =>
      if negb (String.eqb (status post) "scheduled") then
        (db, Json 400 (error_body "Can only cancel scheduled posts"))
      else
        ({| users := users db; media_files := media_files db;
            posts := <[post_id := cancelled clock post]> (posts db) |},
         Json 200 (PyDict (mkdict [
           ("message", PyStr "Post cancelled successfully")])))
  end.

(** *** [DELETE /media/files/<file_id>]

    [removal] is the outcome of removing the file from the disk; the
    relationship [posts] cascades the deletion to the posts of the file. *)
Definition delete_media_file (removal : Outcome unit) (db : DB) (file_id : Z)
    : DB * Response :=
  match media_files db !! file_id with
  | None => (db, Abort 404)
  | Some _ =>
      match removal with
      | Raise e => (db, Json 500 (error_body ("Failed to delete file: " +:+ e)))
      | Return _ =>
          ({| users := users db;
              media_files := delete file_id (media_files db);
              posts :=
                filter (fun kv => media_file_id kv.2 ≠ file_id) (posts db) |},
           Empty 204)
      end
  end.

(** *** The requests that touch the post records *)

Inductive Action : Type :=
| SchedulePost (data : SchedulePostRequest)
| CancelPost (post_id : Z)
| UploadToPlatform (data : UploadRequest)
| SchedulePlatformUpload (data : ScheduleUploadRequest)
| DeleteMediaFile (removal : Outcome unit) (file_id : Z).

Definition step `{Runtime} (svc : SocialMediaService.t) (clock : Clock)
    (db : DB) (a : Action) : DB * Response :=
  match a with
  | SchedulePost data => schedule_post clock db data
  | CancelPost post_id => cancel_post clock db post_id
  | UploadToPlatform data => upload_to_platform svc clock db data
  | SchedulePlatformUpload data => schedule_platform_upload svc clock db data
  | DeleteMediaFile removal file_id => delete_media_file removal db file_id
  end.

(** A sequence of requests, each with its clock reads. *)
Fixpoint run `{Runtime} (svc : SocialMediaService.t) (db : DB)
    (requests : list (Clock * Action)) : DB :=
  match requests with
  | [] => db
  | (clock, a) :: rest => run svc (step svc clock db a).1 rest
  end.

End Routes.

(** ** Further string operations *)

Module PyText.

(** [s.startswith(p)]. *)
Fixpoint starts_with (p s : string) : bool :=
  match p, s with
  | EmptyString, _ => true
  | String a p', String b s' => Ascii.eqb a b && starts_with p' s'
  | String _ _, EmptyString => false
  end.

(** [sub in s] for strings: [sub] starts at some position of [s]. *)
Fixpoint contains (sub s : string) : bool :=
  starts_with sub s ||
  match s with
  | EmptyString => false
  | String _ s' => contains sub s'
  end.

(** [s.rsplit(sep, 1)] for a separator of one character: the text before
    the last separator and the text after it, or [s] alone when it holds
    no separator.  The pieces of the tail are two exactly when the tail
    holds a separator. *)
Fixpoint rsplit1 (sep : ascii) (s : string) : list string :=
  match s with
  | EmptyString => [EmptyString]
  | String c s' =>
      match rsplit1 sep s' with
      | [stem; ext] => [String c stem; ext]
      | _ =>
          if Ascii.eqb c sep then [EmptyString; s'] else [String c s']
      end
  end.

(** [l[1]]. *)
Definition item1 (l : list string) : Outcome string :=
  match l !! 1%nat with
  | Some x => Return x
  | None => Raise "list index out of range"
  end.

End PyText.

(** ** File names and the status route ([routes/media.py]) *)

Module MediaRoutes.

Definition ALLOWED_EXTENSIONS : list string :=
  ["png"; "jpg"; "jpeg"; "gif"; "mp4"; "avi"; "mov"; "wmv"].

(** ['.' in filename and filename.rsplit('.', 1)[1].lower() in
    ALLOWED_EXTENSIONS]; the second operand is evaluated only when the
    first is true. *)
Definition allowed_file (filename : string) : Outcome bool :=
  if PyText.contains "." filename then
    match PyText.item1 (PyText.rsplit1 "." filename) with
    | Return ext => Return (Py.in_list (Py.lower ext) ALLOWED_EXTENSIONS)
    | Raise e => Raise e
    end
  else Return false.

Definition get_file_type (filename : string) : Outcome string :=
  match PyText.item1 (PyText.rsplit1 "." filename) with
  | Raise e => Raise e
  | Return piece =>
      let ext := Py.lower piece in
      if Py.in_list ext ["png"; "jpg"; "jpeg"; "gif"] then Return "image"
      else if Py.in_list ext ["mp4"; "avi"; "mov"; "wmv"] then Return "video"
      else Return "unknown"
  end.

(** [GET /media/upload-status/<platform>/<upload_id>]: the result of the
    dispatcher goes out through [jsonify] with the default status. *)
Definition get_upload_status (svc : SocialMediaService.t)
    (platform upload_id : string) (access_token : option string)
    : Routes.Response :=
  if negb (Routes.opt_truthy_str access_token) then
    Routes.Json 400 (Routes.error_body "access_token is required")
  else
    Routes.Json 200
      (PyDict (SocialMediaService.get_upload_status svc platform upload_id
                 (default "" access_token)).2).

End MediaRoutes.

(** ** The chatbot of [AIService] ([services/ai_service.py]) *)

Module AIChat.

Definition greeting : string :=
  "Hello! I'm your AI assistant. How can I help you today?".

(** The template answer, for a message of ASCII text. *)
Definition _get_mock_response (message : string) : string :=
  let message_lower := Py.lower message in
  if PyText.contains "hello" message_lower
     || PyText.contains "hi" message_lower then greeting
  else if PyText.contains "how are you" message_lower then
    "I'm doing great, thank you for asking! I'm here to help you with any questions or tasks you might have."
  else if PyText.contains "what can you do" message_lower then
    "I can help you with various tasks like answering questions, providing information, and assisting with your social media content management. What would you like to know more about?"
  else if PyText.contains "social media" message_lower then
    "I can help you manage your social media content! You can upload videos and images, and I'll help generate engaging captions and hashtags for platforms like YouTube, Instagram, Facebook, and TikTok."
  else if PyText.contains "upload" message_lower then
    "To upload media, use the media management panel on the right side of the interface. I can help generate captions and hashtags based on your content!"
  else if PyText.contains "thank" message_lower then
    "You're welcome! I'm always here to help. Is there anything else you'd like to know?"
  else
    "I understand you're asking about: '" +:+ message +:+
    "'. I'm here to help! Could you provide more details about what you'd like to know?".

(** [response] is what [openai.ChatCompletion.create] answers to the call
    with the history and the message: the text of the first choice, or an
    exception. *)
Definition get_chat_response (self : AIService.t) (response : Outcome string)
    (message : string) (conversation_history : list PyVal) : string :=
  if negb (AIService.has_key self) then _get_mock_response message
  else
    match response with
    | Return content => content
    | Raise _ => _get_mock_response message
    end.

End AIChat.

(** ** The statements of the specification, in its own words *)

Module Spec.

(** Supported platform identifiers. *)
Definition supported_platforms : list string :=
  ["youtube"; "instagram"; "facebook"; "tiktok"].

(** The per-platform fields of a platform-issued identifier. *)
Definition id_fields : list string :=
  ["video_id"; "media_id"; "post_id"; "publish_id"].

(** [nextOptimalTime] on the time line, in microseconds: the candidate is
    [now + 2 hours]; outside the clock hours [11..21] it is snapped to
    11:00:00 of its day, and moved one day on when that is not strictly
    after [now]; without table entries the candidate is returned as it
    is. *)
Definition us_per_hour : Z := 3600000000.
Definition us_per_day : Z := 86400000000.

Definition clock_hour (t : Z) : Z := (t / us_per_hour) mod 24.

Definition nextOptimalTime (entries : list PyVal) (now : Z) : Z :=
  let candidate := now + 2 * us_per_hour in
  match entries with
  | [] => candidate
  | _ =>
      if (11 <=? clock_hour candidate) && (clock_hour candidate <=? 21)
      then candidate
      else
        let snapped := candidate / us_per_day * us_per_day + 11 * us_per_hour in
        if snapped <=? now then snapped + us_per_day else snapped
  end.

(** The file extension of a path: the text after its last ['.'], the whole
    path when it has none. *)
Fixpoint has_dot (s : string) : bool :=
  match s with
  | EmptyString => false
  | String c s' => Ascii.eqb c "." || has_dot s'
  end.

Fixpoint extension (path : string) : string :=
  match path with
  | EmptyString => EmptyString
  | String c rest =>
      if has_dot rest then extension rest
      else if Ascii.eqb c "." then rest else path
  end.

(** [mp4/avi/mov => video; else image], on the extension whatever its
    case. *)
Definition video_extension (path : string) : bool :=
  let e := Py.lower (extension path) in
  String.eqb e "mp4" || String.eqb e "avi" || String.eqb e "mov".

Inductive Platform : Type := YouTube | Instagram | Facebook | TikTok.

Inductive Shape : Type := VideoRequest | PhotoRequest.

End Spec.

(** The request shape a service prepares for a path: the branch of
    [upload_media] the path takes.  The YouTube service has one shape, its
    video metadata. *)
Definition request_shape (a : Spec.Platform) (media_file_path : string)
    : Spec.Shape :=
  match a with
  | Spec.YouTube => Spec.VideoRequest
  | Spec.Instagram | Spec.Facebook | Spec.TikTok =>
      if is_video media_file_path then Spec.VideoRequest
      else Spec.PhotoRequest
  end.

(** A result that reports success, carries a non-empty identifier under
    one of the per-platform fields, and names the platform [name]. *)
Definition issued_id (result : dict) : Prop :=
  ∃ key id,
    key ∈ Spec.id_fields ∧ result !! key = Some (PyStr id) ∧ id ≠ "".

Definition upload_succeeds (result : dict) (name : string) : Prop :=
  result !! "success" = Some (PyBool true) ∧ issued_id result ∧
  result !! "platform" = Some (PyStr name).

(** The dispatcher's guarantee with the case-insensitive lookup of the
    specification: any spelling of a supported name is served, under its
    lowercase form. *)
Definition dispatch_upload_any_case `{Runtime} : Prop :=
  ∀ (platform media_file_path : string) (metadata : dict)
    (access_token : string),
    Py.lower platform ∈ Spec.supported_platforms →
    access_token ≠ "" →
    upload_succeeds
      (SocialMediaService.upload_to_platform SocialMediaService.init platform
         media_file_path metadata access_token).2
      (Py.lower platform).

(** The classification of the specification over all four services: the
    video shape for a video extension, the photo shape for every other
    path. *)
Definition every_adapter_classifies : Prop :=
  ∀ (a : Spec.Platform) (media_file_path : string),
    request_shape a media_file_path =
    if Spec.video_extension media_file_path then Spec.VideoRequest
    else Spec.PhotoRequest.

(** The content generator's guarantee read for every failed parse: with
    the key configured, a response that [json.loads] does not decode
    gives the truncated caption and the fixed hashtags. *)
Definition parse_failure_falls_back `{Runtime} : Prop :=
  ∀ (self : AIService.t) (ai_response : string) (media_info : dict)
    (platform custom_prompt : string),
    AIService.has_key self = true →
    (∀ v, json_loads ai_response ≠ Decoded v) →
    AIService.generate_social_media_content self (Return ai_response)
      media_info platform custom_prompt
    = AIService.content (Py.take_chars 500 ai_response)
        ["#viral"; "#trending"; "#content"] "Peak hours: 7-9 PM".

(** An environment for the worked examples: [repr] of the scalars, whole
    seconds since 1970 in UTC for [timestamp] (which raises in the first
    day of year 1), an encoder of the scalars and the empty list,
    a decoder that knows the texts [null], [true], [false], [[]] and [{}]
    only; the other answers are placeholders.  The
    theorems below hold in every environment. *)
Definition example_runtime : Runtime := {|
  repr v :=
    match v with
    | PyNone => "None"
    | PyBool true => "True"
    | PyBool false => "False"
    | PyInt n => pretty n
    | _ => "..."
    end;
  str_lower := Py.lower;
  float := Z;
  isoformat d :=
    pretty (datetime.ordinal d) +:+ "T" +:+ pretty (datetime.hour d) +:+ ":"
      +:+ pretty (datetime.minute d) +:+ ":" +:+ pretty (datetime.second d);
  timestamp d :=
    if datetime.ordinal d <? 2 then Raise "year 0 is out of range"
    else Return (datetime.to_us d / 1000000 - 62135683200);
  int_of_float x := x;
  fromisoformat _ := Raise "Invalid isoformat string";
  json_dumps v :=
    match v with
    | PyList [] => "[]"
    | PyBool true => "true"
    | PyBool false => "false"
    | PyInt n => pretty n
    | _ => "null"
    end;
  json_loads s :=
    if String.eqb s "null" then Decoded PyNone
    else if String.eqb s "true" then Decoded (PyBool true)
    else if String.eqb s "false" then Decoded (PyBool false)
    else if String.eqb s "[]" then Decoded (PyList [])
    else if String.eqb s "{}" then Decoded (PyDict ∅)
    else JSONDecodeError "Expecting value: line 1 column 1 (char 0)";
|}.

(** A store for the worked examples: one user, one uploaded video, one
    scheduled post of it. *)
Definition example_clock : Routes.Clock :=
  {| Routes.utcnow := datetime.mk 739000 9 0 0 0;
     Routes.commit_time := datetime.mk 739000 9 0 0 250 |}.

Definition example_media : Routes.MediaFile :=
  {| Routes.mf_user_id := 7;
     Routes.filename := "5f0c.mp4";
     Routes.original_filename := "holiday.mp4";
     Routes.file_path := "/srv/app/uploads/5f0c.mp4";
     Routes.file_type := "video";
     Routes.file_size := 1048576;
     Routes.mime_type := "video/mp4";
     Routes.uploaded_at := datetime.mk 738999 18 30 0 0 |}.

Definition example_post : Routes.SocialMediaPost :=
  {| Routes.user_id := 7;
     Routes.media_file_id := 1;
     Routes.platform := "instagram";
     Routes.title := PyStr "Holiday";
     Routes.description := PyStr "On the beach";
     Routes.hashtags := PyStr "[]";
     Routes.scheduled_time := datetime.mk 739001 19 0 0 0;
     Routes.status := "scheduled";
     Routes.post_id := PyNone;
     Routes.posted_at := None;
     Routes.error_message := None;
     Routes.created_at := datetime.mk 738999 18 31 0 0;
     Routes.updated_at := datetime.mk 738999 18 31 0 0 |}.

Definition example_db : Routes.DB :=
  {| Routes.users := {[7]};
     Routes.media_files := {[1 := example_media]};
     Routes.posts := {[1 := example_post]} |}.

(** Whether a call returned. *)
Definition returned {A : Type} (o : Outcome A) : bool :=
  match o with
  | Return _ => true
  | Raise _ => false
  end.

(** An answer that reports an error: a status from 400 on. *)
Definition is_error (r : Routes.Response) : bool :=
  match r with
  | Routes.Json code _ => 400 <=? code
  | Routes.Abort code => 400 <=? code
  | Routes.Empty code => 400 <=? code
  end.

(** The values a schedule request gives for the text columns: a text, or
    nothing, for the title and the description; a list or a text, or
    nothing, for the hashtags. *)
Definition text_value (v : option PyVal) : bool :=
  match v with
  | None | Some (PyStr _) => true
  | _ => false
  end.

Definition hashtags_value (v : option PyVal) : bool :=
  match v with
  | None | Some (PyStr _) | Some (PyList _) => true
  | _ => false
  end.

(** The environment of the examples with a parser that knows one text,
    19:00 UTC on 1 May 2024 (ordinal 739007). *)
Definition example_runtime_iso : Runtime := {|
  repr := @repr example_runtime;
  str_lower := @str_lower example_runtime;
  float := Z;
  isoformat := @isoformat example_runtime;
  timestamp := @timestamp example_runtime;
  int_of_float := @int_of_float example_runtime;
  fromisoformat s :=
    if String.eqb s "2024-05-01T19:00:00+00:00"
    then Return (datetime.mk 739007 19 0 0 0)
    else Raise "Invalid isoformat string";
  json_dumps := @json_dumps example_runtime;
  json_loads := @json_loads example_runtime;
|}.

(** A response that opens a hundred thousand arrays and closes none. *)
Definition deep_response : string := Py.repeat "[" (Z.to_nat 100000).

(** The environment of the examples with a decoder that gives up, by a
    [RecursionError], on a text that opens a hundred thousand arrays or
    more. *)
Definition example_runtime_deep : Runtime := {|
  repr := @repr example_runtime;
  str_lower := @str_lower example_runtime;
  float := Z;
  isoformat := @isoformat example_runtime;
  timestamp := @timestamp example_runtime;
  int_of_float := @int_of_float example_runtime;
  fromisoformat := @fromisoformat example_runtime;
  json_dumps := @json_dumps example_runtime;
  json_loads s :=
    if PyText.starts_with deep_response s
    then DecodingFailed
           "maximum recursion depth exceeded while decoding a JSON array from a unicode string"
    else @json_loads example_runtime s;
|}.

(** * Properties *)

(** ** Time arithmetic *)

Section TimeArithmetic.

Lemma timedelta_new_total d s u m h :
  timedelta.total_us (timedelta.new d s u m h) =
  (d * 86400 + s + 60 * m + 3600 * h) * 1000000 + u.
Proof.
  unfold timedelta.total_us, timedelta.new; cbn.
  Z.to_euclidean_division_equations; lia.
Qed.

Lemma datetime_add_to_us dt td :
  datetime.to_us (datetime.add dt td) =
  datetime.to_us dt + timedelta.total_us td.
Proof.
  unfold datetime.to_us, datetime.add, timedelta.add, timedelta.total_us,
    timedelta.new; cbn.
  Z.to_euclidean_division_equations; lia.
Qed.

Lemma datetime_add_wf dt td : datetime.wf (datetime.add dt td).
Proof.
  unfold datetime.wf, datetime.add, timedelta.add, timedelta.new; cbn.
  Z.to_euclidean_division_equations; lia.
Qed.

Lemma wf_hour d :
  datetime.wf d -> datetime.hour d = Spec.clock_hour (datetime.to_us d).
Proof.
  unfold datetime.wf, datetime.to_us, Spec.clock_hour, Spec.us_per_hour.
  intros; Z.to_euclidean_division_equations; lia.
Qed.

Lemma wf_ordinal d :
  datetime.wf d -> datetime.ordinal d = datetime.to_us d / Spec.us_per_day.
Proof.
  unfold datetime.wf, datetime.to_us, Spec.us_per_day.
  intros; Z.to_euclidean_division_equations; lia.
Qed.

(** On the values of the library, the order of the field tuples is the
    order of the time line. *)
Lemma leb_to_us a b :
  datetime.wf a -> datetime.wf b ->
  datetime.leb a b = (datetime.to_us a <=? datetime.to_us b).
Proof.
  unfold datetime.wf, datetime.leb, datetime.cmp, datetime.to_us.
  intros Ha Hb.
  destruct (Z.compare_spec (datetime.ordinal a) (datetime.ordinal b));
    [destruct (Z.compare_spec (datetime.hour a) (datetime.hour b));
      [destruct (Z.compare_spec (datetime.minute a) (datetime.minute b));
        [destruct (Z.compare_spec (datetime.second a) (datetime.second b));
          [destruct (Z.compare_spec (datetime.microsecond a)
                       (datetime.microsecond b)) | |] | |] | |] | |];
    symmetry; first [apply Z.leb_le; lia | apply Z.leb_gt; lia].
Qed.

Lemma total_us_hours h :
  timedelta.total_us (timedelta.of_hours h) = h * Spec.us_per_hour.
Proof.
  unfold timedelta.of_hours. rewrite timedelta_new_total.
  unfold Spec.us_per_hour. lia.
Qed.

Lemma total_us_days d :
  timedelta.total_us (timedelta.of_days d) = d * Spec.us_per_day.
Proof.
  unfold timedelta.of_days. rewrite timedelta_new_total.
  unfold Spec.us_per_day. lia.
Qed.

Lemma replace_clock_11_wf d : datetime.wf (datetime.replace_clock d 11 0 0 0).
Proof. unfold datetime.wf; cbn; lia. Qed.

Lemma replace_clock_11_to_us d :
  datetime.wf d ->
  datetime.to_us (datetime.replace_clock d 11 0 0 0) =
  datetime.to_us d / Spec.us_per_day * Spec.us_per_day + 11 * Spec.us_per_hour.
Proof.
  intros Hd. rewrite <- (wf_ordinal d Hd).
  unfold datetime.to_us, Spec.us_per_day, Spec.us_per_hour; cbn. lia.
Qed.

(** A value of the library is determined by its place on the time
    line. *)
Lemma to_us_inj a b :
  datetime.wf a -> datetime.wf b ->
  datetime.to_us a = datetime.to_us b -> a = b.
Proof.
  intros Ha Hb Heq.
  destruct a as [oa ha ma sa ua], b as [ob hb mb sb ub].
  unfold datetime.wf, datetime.to_us in *; cbn in *.
  assert (oa = ob) by lia. assert (ha = hb) by lia.
  assert (ma = mb) by lia. assert (sa = sb) by lia.
  assert (ua = ub) by lia. by subst.
Qed.

End TimeArithmetic.

(** ** The posting-time advisor *)

Section Advisor.

Import ViralTimeService.

Example next_tiktok_0300 :
  suggest_next_optimal_time "tiktok" (datetime.mk 739000 3 0 0 0)
  = datetime.mk 739000 11 0 0 0.
Proof. reflexivity. Qed.

Example next_tiktok_1030 :
  suggest_next_optimal_time "tiktok" (datetime.mk 739000 10 30 0 0)
  = datetime.mk 739000 12 30 0 0.
Proof. reflexivity. Qed.

Example next_tiktok_2200 :
  suggest_next_optimal_time "tiktok" (datetime.mk 739000 22 15 0 0)
  = datetime.mk 739001 11 0 0 0.
Proof. reflexivity. Qed.

Example next_tiktok_2015 :
  suggest_next_optimal_time "tiktok" (datetime.mk 739000 20 15 30 7)
  = datetime.mk 739001 11 0 0 0.
Proof. reflexivity. Qed.

Example next_tiktok_2330 :
  suggest_next_optimal_time "tiktok" (datetime.mk 739000 23 30 0 0)
  = datetime.mk 739001 11 0 0 0.
Proof. reflexivity. Qed.

Example next_unknown_0300 :
  suggest_next_optimal_time "unknownplatform" (datetime.mk 739000 3 0 0 0)
  = datetime.mk 739000 5 0 0 0.
Proof. reflexivity. Qed.

Lemma get_optimal_times_supported platform :
  platform ∈ Spec.supported_platforms ->
  length (get_optimal_times platform) = 3%nat.
Proof.
  unfold Spec.supported_platforms; intros Hp.
  repeat (apply elem_of_cons in Hp as [-> | Hp]; [reflexivity |]).
  by apply elem_of_nil in Hp.
Qed.

Lemma get_optimal_times_unknown platform :
  platform ∉ Spec.supported_platforms -> get_optimal_times platform = [].
Proof.
  unfold Spec.supported_platforms, get_optimal_times, optimal_times.
  intros Hp. rewrite not_elem_of_cons in Hp. destruct Hp as [H1 Hp].
  rewrite not_elem_of_cons in Hp. destruct Hp as [H2 Hp].
  rewrite not_elem_of_cons in Hp. destruct Hp as [H3 Hp].
  rewrite not_elem_of_cons in Hp. destruct Hp as [H4 _].
  cbn [list_to_map foldr uncurry fst snd].
  rewrite !lookup_insert_ne by done. by rewrite lookup_empty.
Qed.

(** The advisor's result is a value of the library. *)
Lemma suggest_next_optimal_time_wf platform now :
  datetime.wf (suggest_next_optimal_time platform now).
Proof.
  unfold suggest_next_optimal_time.
  destruct (get_optimal_times platform); [apply datetime_add_wf |].
  destruct (_ || _); [| apply datetime_add_wf].
  destruct (datetime.leb _ _);
    [apply datetime_add_wf | apply replace_clock_11_wf].
Qed.

(** The advisor's result, placed on the time line, is the time of the
    specification. *)
Lemma suggest_next_optimal_time_to_us platform now :
  datetime.wf now ->
  datetime.to_us (suggest_next_optimal_time platform now) =
  Spec.nextOptimalTime (get_optimal_times platform) (datetime.to_us now).
Proof.
  intros Hnow.
  unfold suggest_next_optimal_time, Spec.nextOptimalTime.
  set (cand := datetime.add now (timedelta.of_hours 2)).
  assert (Hcw : datetime.wf cand) by apply datetime_add_wf.
  assert (Hc : datetime.to_us cand = datetime.to_us now + 2 * Spec.us_per_hour).
  { unfold cand. by rewrite datetime_add_to_us, total_us_hours. }
  rewrite <- Hc.
  destruct (get_optimal_times platform) as [| e entries]; [done |].
  rewrite <- (wf_hour cand Hcw).
  destruct (Z.ltb_spec (datetime.hour cand) 11) as [Hlo | Hlo]; cbn [orb].
  - replace (11 <=? datetime.hour cand) with false
      by (symmetry; apply Z.leb_gt; lia).
    cbn [andb].
    rewrite (leb_to_us _ now (replace_clock_11_wf cand) Hnow).
    rewrite (replace_clock_11_to_us cand Hcw).
    destruct (_ <=? datetime.to_us now);
      [rewrite datetime_add_to_us, total_us_days |];
      rewrite (replace_clock_11_to_us cand Hcw); lia.
  - replace (11 <=? datetime.hour cand) with true
      by (symmetry; apply Z.leb_le; lia).
    cbn [andb].
    destruct (Z.leb_spec (datetime.hour cand) 21) as [Hhi | Hhi].
    + replace (datetime.hour cand >? 21) with false; [done |].
      symmetry. rewrite Z.gtb_ltb. apply Z.ltb_ge; lia.
    + replace (datetime.hour cand >? 21) with true
        by (symmetry; rewrite Z.gtb_ltb; apply Z.ltb_lt; lia).
      rewrite (leb_to_us _ now (replace_clock_11_wf cand) Hnow).
      rewrite (replace_clock_11_to_us cand Hcw).
      destruct (_ <=? datetime.to_us now);
        [rewrite datetime_add_to_us, total_us_days |];
        rewrite (replace_clock_11_to_us cand Hcw); lia.
Qed.

(** C5. For every platform and every current time, the advisor returns
    the time the specification describes: [now + 2 hours] when the
    platform has no table entries or when the clock hour of that candidate
    lies in [11..21]; otherwise the candidate snapped to 11:00:00 of its
    day, one day later when the snapped time is not strictly after
    [now]. *)
Theorem suggest_next_optimal_time_spec platform now :
  datetime.wf now ->
  datetime.wf (suggest_next_optimal_time platform now) /\
  datetime.to_us (suggest_next_optimal_time platform now) =
  Spec.nextOptimalTime (get_optimal_times platform) (datetime.to_us now).
Proof.
  intros Hnow. split;
    [apply suggest_next_optimal_time_wf
    | by apply suggest_next_optimal_time_to_us].
Qed.

Lemma suggest_next_optimal_time_spec_witness :
  datetime.wf (datetime.mk 739000 3 0 0 0) /\
  (datetime.wf
     (suggest_next_optimal_time "tiktok" (datetime.mk 739000 3 0 0 0)) /\
   datetime.to_us
     (suggest_next_optimal_time "tiktok" (datetime.mk 739000 3 0 0 0)) =
   Spec.nextOptimalTime (get_optimal_times "tiktok")
     (datetime.to_us (datetime.mk 739000 3 0 0 0))).
Proof.
  assert (H : datetime.wf (datetime.mk 739000 3 0 0 0))
    by (unfold datetime.wf; simpl; lia).
  split; [exact H | apply (suggest_next_optimal_time_spec "tiktok" _ H)].
Defined.

(** The time line of the specification: the result is later than [now]. *)
Lemma nextOptimalTime_after entries now :
  now < Spec.nextOptimalTime entries now.
Proof.
  unfold Spec.nextOptimalTime, Spec.us_per_day, Spec.us_per_hour.
  destruct entries; [lia |].
  destruct (_ && _); [lia |].
  destruct (Z.leb_spec
    ((now + 2 * 3600000000) / 86400000000 * 86400000000 + 11 * 3600000000)
    now); [| lia].
  Z.to_euclidean_division_equations; lia.
Qed.

(** C10. For every platform (known or not) and every current time, the
    time the advisor returns is strictly after [now]: the comparison
    [result <= now] of the program is false. *)
Theorem suggest_next_optimal_time_after_now platform now :
  datetime.wf now ->
  datetime.leb (suggest_next_optimal_time platform now) now = false /\
  datetime.to_us now < datetime.to_us (suggest_next_optimal_time platform now).
Proof.
  intros Hnow.
  pose proof (suggest_next_optimal_time_wf platform now) as Hwf.
  pose proof (suggest_next_optimal_time_to_us platform now Hnow) as Heq.
  assert (Hlt : datetime.to_us now <
                datetime.to_us (suggest_next_optimal_time platform now)).
  { rewrite Heq. apply nextOptimalTime_after. }
  split; [| exact Hlt].
  rewrite (leb_to_us _ _ Hwf Hnow). apply Z.leb_gt. exact Hlt.
Qed.

Lemma suggest_next_optimal_time_after_now_witness :
  datetime.wf (datetime.mk 739000 23 59 59 999999) /\
  (datetime.leb
     (suggest_next_optimal_time "mastodon"
        (datetime.mk 739000 23 59 59 999999))
     (datetime.mk 739000 23 59 59 999999) = false /\
   datetime.to_us (datetime.mk 739000 23 59 59 999999) <
   datetime.to_us
     (suggest_next_optimal_time "mastodon"
        (datetime.mk 739000 23 59 59 999999))).
Proof.
  assert (H : datetime.wf (datetime.mk 739000 23 59 59 999999))
    by (unfold datetime.wf; simpl; lia).
  split; [exact H | apply (suggest_next_optimal_time_after_now "mastodon" _ H)].
Defined.

End Advisor.

(** ** The dispatcher *)

Section Dispatcher.

Context `{rt : Runtime}.

Import SocialMediaService.

Lemma not_supported_inv (platform : string) :
  platform ∉ Spec.supported_platforms ->
  platform ≠ "youtube" ∧ platform ≠ "instagram" ∧ platform ≠ "facebook" ∧
  platform ≠ "tiktok".
Proof.
  unfold Spec.supported_platforms. rewrite !not_elem_of_cons. tauto.
Qed.

(** The keys of the table are the supported names, as they are spelled. *)
Lemma init_lookup_unsupported platform :
  platform ∉ Spec.supported_platforms -> platforms init !! platform = None.
Proof.
  intros (H1 & H2 & H3 & H4)%not_supported_inv.
  unfold init; cbn [platforms list_to_map foldr uncurry fst snd].
  rewrite !lookup_insert_ne by done. apply lookup_empty.
Qed.

Lemma init_lookup_supported platform :
  platform ∈ Spec.supported_platforms ->
  platforms init !! platform =
  Some (if String.eqb platform "youtube" then YouTubeService.service
        else if String.eqb platform "instagram" then InstagramService.service
        else if String.eqb platform "facebook" then FacebookService.service
        else TikTokService.service).
Proof.
  unfold Spec.supported_platforms; intros Hp.
  repeat (apply elem_of_cons in Hp as [-> | Hp]; [reflexivity |]).
  by apply elem_of_nil in Hp.
Qed.

Example upload_youtube_lowercase path md tok :
  upload_to_platform init "youtube" path md tok =
  ([UploadMedia "youtube"],
   mkdict [("success", PyBool true); ("platform", PyStr "youtube");
           ("video_id", PyStr "mock_youtube_video_id");
           ("url", PyStr "https://youtube.com/watch?v=mock_video_id");
           ("message", PyStr "Video uploaded successfully to YouTube")]).
Proof. reflexivity. Qed.

Example upload_youtube_mixed_case path md tok :
  upload_to_platform init "YouTube" path md tok =
  ([], mkdict [("success", PyBool false);
               ("error", PyStr "Unsupported platform: YouTube")]).
Proof. reflexivity. Qed.

(** C1, as amended. For every platform name that is one of [youtube],
    [instagram], [facebook], [tiktok] as spelled (in lowercase), and for
    every media path, metadata and credential, [upload_to_platform] runs
    the upload of that one service and returns a result with
    [success = True], a non-empty identifier under one of the per-platform
    fields, and [platform] equal to the requested name. *)
Theorem upload_to_platform_supported platform path md tok :
  platform ∈ Spec.supported_platforms ->
  (upload_to_platform init platform path md tok).1 = [UploadMedia platform] ∧
  upload_succeeds (upload_to_platform init platform path md tok).2 platform.
Proof.
  unfold Spec.supported_platforms; intros Hp.
  repeat (apply elem_of_cons in Hp as [-> | Hp];
    [split; [reflexivity |];
     split; [reflexivity |]; split; [| reflexivity] |]).
  - exists "video_id", "mock_youtube_video_id".
    split; [unfold Spec.id_fields; set_solver | by split].
  - exists "media_id", "mock_instagram_media_id".
    split; [unfold Spec.id_fields; set_solver | by split].
  - exists "post_id", "mock_facebook_post_id".
    split; [unfold Spec.id_fields; set_solver | by split].
  - exists "publish_id", "mock_tiktok_publish_id".
    split; [unfold Spec.id_fields; set_solver | by split].
  - by apply elem_of_nil in Hp.
Qed.

(** The guard of the dispatcher, for any table of services. *)
Lemma upload_to_platform_absent (self : t) platform path md tok :
  platforms self !! platform = None ->
  upload_to_platform self platform path md tok = ([], unsupported platform).
Proof. unfold upload_to_platform. by intros ->. Qed.

Lemma unsupported_not_success platform :
  unsupported platform !! "success" = Some (PyBool false).
Proof. reflexivity. Qed.

End Dispatcher.

Lemma upload_to_platform_supported_witness :
  "tiktok" ∈ Spec.supported_platforms ∧
  ((SocialMediaService.upload_to_platform
      (SocialMediaService.init (H := example_runtime))
      "tiktok" "clip.mp4" ∅ "token").1
   = [SocialMediaService.UploadMedia "tiktok"] ∧
   upload_succeeds
     (SocialMediaService.upload_to_platform
        (SocialMediaService.init (H := example_runtime))
        "tiktok" "clip.mp4" ∅ "token").2 "tiktok").
Proof.
  assert (Hin : "tiktok" ∈ Spec.supported_platforms)
    by (unfold Spec.supported_platforms; set_solver).
  split;
    [exact Hin
    | apply (upload_to_platform_supported (rt := example_runtime)
               "tiktok" "clip.mp4" ∅ "token" Hin)].
Defined.

(** C1, as stated, fails: the table is keyed by the lowercase names and
    the lookup does not normalise, so ["YouTube"] is not served. *)
Lemma dispatch_upload_any_case_fails :
  ¬ dispatch_upload_any_case (H := example_runtime).
Proof.
  intros Hclaim.
  destruct (Hclaim "YouTube" "clip.mp4" ∅ "token") as [Hsuccess _].
  - unfold Spec.supported_platforms. cbn. set_solver.
  - discriminate.
  - vm_compute in Hsuccess. discriminate.
Qed.

(** ** The routes over the post records *)

Section Posts.

Context `{rt : Runtime}.

Import Routes.

Lemma max_key_bound (l : list Z) k : k ∈ l -> k <= foldr Z.max 0 l.
Proof.
  induction l as [| x l IH]; [by intros ?%elem_of_nil |].
  cbn. intros [-> | Hk%IH]%elem_of_cons; lia.
Qed.

Lemma new_id_fresh db : posts db !! new_id db = None.
Proof.
  unfold new_id. destruct (posts db !! _) as [p |] eqn:Hp; [| done].
  assert (Hin : 1 + foldr Z.max 0 (map_to_list (posts db)).*1
                ∈ (map_to_list (posts db)).*1).
  { apply list_elem_of_fmap. exists (1 + foldr Z.max 0 (map_to_list (posts db)).*1, p).
    split; [done | by apply elem_of_map_to_list]. }
  apply max_key_bound in Hin. lia.
Qed.

Lemma add_post_lookup db post id :
  posts (add_post db post) !! id =
  if decide (new_id db = id) then Some post else posts db !! id.
Proof. unfold add_post; cbn [posts]. apply lookup_insert. Qed.

Lemma opt_truthy_Z_Some n : n ≠ 0 -> opt_truthy_Z (Some n) = true.
Proof. intros Hn. cbn. by apply negb_true_iff, Z.eqb_neq. Qed.

Lemma opt_truthy_str_Some s : s ≠ "" -> opt_truthy_str (Some s) = true.
Proof. intros Hs. cbn. by apply negb_true_iff, String.eqb_neq. Qed.

(** The constructor refuses the keywords of the two platform routes, and
    accepts those of the schedule route. *)
Lemma create_published_raises clock media_file id platform metadata result :
  create clock (published_kwargs clock media_file id platform metadata result)
  = Raise "'platform_post_id' is an invalid keyword argument for SocialMediaPost".
Proof. reflexivity. Qed.

Lemma create_scheduled_upload_raises clock media_file id platform metadata
    result when :
  create clock
    (scheduled_upload_kwargs media_file id platform metadata result when)
  = Raise "'platform_post_id' is an invalid keyword argument for SocialMediaPost".
Proof. reflexivity. Qed.

Lemma create_scheduled clock data uid mfid platform when :
  create clock (scheduled_kwargs data uid mfid platform when)
  = Return (scheduled_post clock data uid mfid platform when).
Proof. reflexivity. Qed.

(** The two platform routes never write: where the service reports
    success, the constructor raises before anything is stored. *)
Lemma upload_to_platform_store svc clock db data :
  (upload_to_platform svc clock db data).1 = db.
Proof.
  unfold upload_to_platform.
  destruct (negb _); [done |].
  destruct (media_files db !! _) as [media_file |]; [| done].
  destruct (_ !! "success") as [success |]; [| done].
  destruct (Py.truthy success); [| done].
  by rewrite create_published_raises.
Qed.

Lemma schedule_platform_upload_store svc clock db data :
  (schedule_platform_upload svc clock db data).1 = db.
Proof.
  unfold schedule_platform_upload.
  destruct (negb _); [done |].
  destruct (media_files db !! _) as [media_file |]; [| done].
  destruct (fromisoformat _) as [when | e]; [| done].
  destruct (_ !! "success") as [success |]; [| done].
  destruct (Py.truthy success); [| done].
  by rewrite create_scheduled_upload_raises.
Qed.

(** C3. For every platform string that is not one of the supported names,
    [upload_to_platform] of the dispatcher returns exactly
    [{'success': False, 'error': 'Unsupported platform: <platform>'}] and
    runs no service method, and the upload route, asked for that
    platform, leaves the store as it was (no post record is created) and
    answers with an error. *)
Theorem unsupported_platform_rejected platform path md tok clock db
    media_file_id access_token metadata :
  platform ∉ Spec.supported_platforms ->
  SocialMediaService.upload_to_platform SocialMediaService.init platform
    path md tok
  = ([], mkdict [("success", PyBool false);
                 ("error", PyStr ("Unsupported platform: " +:+ platform))]) ∧
  let data := {| up_media_file_id := media_file_id;
                 up_platform := Some platform;
                 up_access_token := access_token;
                 up_metadata := metadata |} in
  (upload_to_platform SocialMediaService.init clock db data).1 = db ∧
  ((upload_to_platform SocialMediaService.init clock db data).2
     = Json 400 (error_body
         "media_file_id, platform, and access_token are required") ∨
   (upload_to_platform SocialMediaService.init clock db data).2 = Abort 404 ∨
   (upload_to_platform SocialMediaService.init clock db data).2
     = Json 400 (PyDict (SocialMediaService.unsupported platform))).
Proof.
  intros Hp.
  pose proof (init_lookup_unsupported platform Hp) as Hnone.
  split; [by apply upload_to_platform_absent |].
  cbn zeta. unfold upload_to_platform.
  cbn [up_media_file_id up_platform up_access_token up_metadata
       from_option id].
  destruct (negb _); [split; [reflexivity | by left] |].
  destruct (media_files db !! _) as [media_file |];
    [| split; [reflexivity | by right; left]].
  rewrite (upload_to_platform_absent _ _ _ _ _ Hnone).
  cbn [snd]. rewrite unsupported_not_success. cbn [Py.truthy].
  split; [reflexivity | by right; right].
Qed.

(** C2 on the code. For each of the four supported platforms, an
    immediate publish for an existing media file with a credential makes
    the service report success with a non-empty identifier, and yet the
    route stores nothing and answers 500: it hands the constructor of
    [SocialMediaPost] the keyword [platform_post_id], which the class
    does not declare.  The value it computed for that keyword is the
    identifier for [youtube], [instagram] and [facebook], and [None] for
    [tiktok], whose [publish_id] the route does not read. *)
Theorem publish_not_persisted clock db file_id media_file platform tok md :
  file_id ≠ 0 -> tok ≠ "" -> media_files db !! file_id = Some media_file ->
  platform ∈ Spec.supported_platforms ->
  let data := {| up_media_file_id := Some file_id;
                 up_platform := Some platform;
                 up_access_token := Some tok; up_metadata := md |} in
  let result :=
    (SocialMediaService.upload_to_platform SocialMediaService.init platform
       (file_path media_file) (metadata_of md) tok).2 in
  ∃ key id,
    result !! "success" = Some (PyBool true) ∧
    key ∈ Spec.id_fields ∧ result !! key = Some (PyStr id) ∧ id ≠ "" ∧
    (list_to_map
       (published_kwargs clock media_file file_id platform (metadata_of md)
          result) : gmap string Val) !! "platform_post_id"
    = Some (VPy (if String.eqb platform "tiktok" then PyNone
                 else PyStr id)) ∧
    upload_to_platform SocialMediaService.init clock db data
    = (db,
       Json 500 (error_body
         "Upload failed: 'platform_post_id' is an invalid keyword argument for SocialMediaPost")).
Proof.
  intros Hid Htok Hmf Hin. cbn zeta. unfold upload_to_platform.
  cbn [up_media_file_id up_platform up_access_token up_metadata
       from_option id].
  rewrite (opt_truthy_Z_Some _ Hid), (opt_truthy_str_Some _ Htok), Hmf.
  unfold Spec.supported_platforms, Spec.id_fields in *.
  apply elem_of_cons in Hin as [-> | Hin];
    [exists "video_id", "mock_youtube_video_id";
     repeat split; try reflexivity; try discriminate; set_solver |].
  apply elem_of_cons in Hin as [-> | Hin];
    [exists "media_id", "mock_instagram_media_id";
     repeat split; try reflexivity; try discriminate; set_solver |].
  apply elem_of_cons in Hin as [-> | Hin];
    [exists "post_id", "mock_facebook_post_id";
     repeat split; try reflexivity; try discriminate; set_solver |].
  apply elem_of_cons in Hin as [-> | Hin];
    [exists "publish_id", "mock_tiktok_publish_id";
     repeat split; try reflexivity; try discriminate; set_solver |].
  by apply elem_of_nil in Hin.
Qed.

(** *** The status of a record across a request *)

Lemma add_post_lookup_Some db post id p :
  posts (add_post db post) !! id = Some p ->
  posts db !! id = Some p ∨ (posts db !! id = None ∧ p = post).
Proof.
  rewrite add_post_lookup. destruct (decide (new_id db = id)) as [<- | Hne].
  - intros [= <-]. right. split; [apply new_id_fresh | reflexivity].
  - by left.
Qed.

Lemma add_post_lookup_None db post id :
  posts (add_post db post) !! id = None -> posts db !! id = None.
Proof.
  rewrite add_post_lookup. by destruct (decide (new_id db = id)).
Qed.

Lemma add_scheduled_lookup clock data uid mfid when platforms :
  ∀ db db' created id p,
    add_scheduled clock data uid mfid when platforms db
      = Return (db', created) ->
    posts db' !! id = Some p ->
    posts db !! id = Some p ∨ (posts db !! id = None ∧ status p = "scheduled").
Proof.
  induction platforms as [| platform rest IH]; intros db db' created id p;
    cbn [add_scheduled].
  - intros [= <- _]. by left.
  - rewrite create_scheduled.
    destruct (add_scheduled clock data uid mfid when rest (add_post db _))
      as [[db'' created'] | e] eqn:Hrest; [| discriminate].
    intros [= <- _] Hp.
    destruct (IH _ _ _ id p Hrest Hp) as [Hold | [Hnone Hst]].
    + apply add_post_lookup_Some in Hold as [Hold | [Hnone ->]];
        [by left | by right].
    + right. split; [by eapply add_post_lookup_None | exact Hst].
Qed.

Lemma schedule_post_lookup clock db data id p :
  posts (schedule_post clock db data).1 !! id = Some p ->
  posts db !! id = Some p ∨ (posts db !! id = None ∧ status p = "scheduled").
Proof.
  unfold schedule_post.
  destruct (negb _); [by left |].
  destruct (negb (bool_decide _)); [by left |].
  destruct (media_files db !! _) as [media_file |]; [| by left].
  destruct (negb (_ =? _)); [by left |].
  destruct (fromisoformat _) as [when | e]; [| by left].
  destruct (add_scheduled _ _ _ _ _ _ _) as [[db' created] | e] eqn:Hadd;
    [| by left].
  by eapply add_scheduled_lookup.
Qed.

Lemma cancel_post_lookup clock db post_id id p :
  posts (cancel_post clock db post_id).1 !! id = Some p ->
  posts db !! id = Some p ∨
  (id = post_id ∧
   ∃ post, posts db !! post_id = Some post ∧ status post = "scheduled" ∧
           p = cancelled clock post).
Proof.
  unfold cancel_post.
  destruct (posts db !! post_id) as [post |] eqn:Hpost; [| by left].
  destruct (String.eqb_spec (status post) "scheduled") as [Hst | Hst];
    cbn [negb]; [| by left].
  cbn [fst posts]. rewrite lookup_insert.
  destruct (decide (post_id = id)) as [<- | Hne]; [| by left].
  intros [= <-]. right. split; [reflexivity |]. by exists post.
Qed.

Lemma delete_media_file_lookup removal db file_id id p :
  posts (delete_media_file removal db file_id).1 !! id = Some p ->
  posts db !! id = Some p.
Proof.
  unfold delete_media_file.
  destruct (media_files db !! file_id); [| done].
  destruct removal; [| done].
  cbn [fst posts]. by intros [Hp _]%map_lookup_filter_Some.
Qed.

(** Where a record found after a request comes from. *)
Lemma step_lookup svc clock db a id p :
  posts (step svc clock db a).1 !! id = Some p ->
  posts db !! id = Some p ∨
  (posts db !! id = None ∧ status p = "scheduled") ∨
  (a = CancelPost id ∧
   ∃ post, posts db !! id = Some post ∧ status post = "scheduled" ∧
           p = cancelled clock post).
Proof.
  destruct a as [data | post_id | data | data | removal file_id];
    cbn [step]; intros Hp.
  - apply schedule_post_lookup in Hp as [Hold | Hnew];
      [by left | by right; left].
  - apply cancel_post_lookup in Hp as [Hold | (-> & Hpost)];
      [by left | by right; right].
  - rewrite upload_to_platform_store in Hp. by left.
  - rewrite schedule_platform_upload_store in Hp. by left.
  - left. by eapply delete_media_file_lookup.
Qed.

(** The upload route comes to construct its [published] record, and to
    answer the constructor's error, only after a service call that
    returned a true [success]. *)
Lemma upload_constructs_after_success svc clock db data :
  (upload_to_platform svc clock db data).2
  = Json 500 (error_body
      "Upload failed: 'platform_post_id' is an invalid keyword argument for SocialMediaPost") ->
  ∃ media_file service result success,
    media_files db !! default 0 (up_media_file_id data) = Some media_file ∧
    SocialMediaService.platforms svc !! default "" (up_platform data)
      = Some service ∧
    Adapter.upload_media service (file_path media_file)
      (metadata_of (up_metadata data)) (default "" (up_access_token data))
      = Return result ∧
    result !! "success" = Some success ∧ Py.truthy success = true.
Proof.
  unfold upload_to_platform.
  destruct (negb _); [discriminate |].
  destruct (media_files db !! _) as [media_file |] eqn:Hmf; [| discriminate].
  unfold SocialMediaService.upload_to_platform.
  destruct (SocialMediaService.platforms svc !! _) as [service |] eqn:Hsvc;
    cbn [snd]; [| rewrite unsupported_not_success; discriminate].
  destruct (Adapter.upload_media service _ _ _) as [result | e] eqn:Hup;
    cbn [SocialMediaService.guarded]; [| discriminate].
  destruct (result !! "success") as [success |] eqn:Hsuccess;
    [| discriminate].
  destruct (Py.truthy success) eqn:Htrue; [| discriminate].
  intros _. by exists media_file, service, result, success.
Qed.

(** C4. Across every request that touches the post records, for any
    table of services: a record that holds [published] afterwards held it
    before, unchanged (no request makes a record [published]: the upload
    route, the only one to construct such a record, comes to construct it
    only after a service call that returned a true [success], and the
    constructor refuses it); a record that holds [cancelled] afterwards
    either held it before, unchanged, or is the record the cancel route
    was asked for, which held [scheduled] before; and a cancel request
    for a record in any other status is answered with an error and
    leaves the store as it was. *)
Theorem post_status_transitions svc clock db a :
  (∀ id p, posts (step svc clock db a).1 !! id = Some p ->
     (status p = "published" -> posts db !! id = Some p) ∧
     (status p = "cancelled" ->
        posts db !! id = Some p ∨
        (a = CancelPost id ∧
         ∃ post, posts db !! id = Some post ∧ status post = "scheduled" ∧
                 p = cancelled clock post))) ∧
  (∀ data, a = UploadToPlatform data ->
     (step svc clock db a).2
     = Json 500 (error_body
         "Upload failed: 'platform_post_id' is an invalid keyword argument for SocialMediaPost") ->
     ∃ media_file service result success,
       media_files db !! default 0 (up_media_file_id data)
         = Some media_file ∧
       SocialMediaService.platforms svc !! default "" (up_platform data)
         = Some service ∧
       Adapter.upload_media service (file_path media_file)
         (metadata_of (up_metadata data))
         (default "" (up_access_token data)) = Return result ∧
       result !! "success" = Some success ∧ Py.truthy success = true) ∧
  (∀ id post, a = CancelPost id -> posts db !! id = Some post ->
     status post ≠ "scheduled" ->
     step svc clock db a
     = (db, Json 400 (error_body "Can only cancel scheduled posts"))).
Proof.
  split; [| split].
  - intros id p Hp.
    apply step_lookup in Hp as [Hold | [[_ Hst] | (Ha & post & Hpost)]].
    + by split; [| left].
    + split; congruence.
    + destruct Hpost as (Hfound & Hst & ->).
      split; [discriminate | right; split; [exact Ha | by exists post]].
  - intros data ->. cbn [step]. apply upload_constructs_after_success.
  - intros id post -> Hpost Hst. cbn [step]. unfold cancel_post.
    rewrite Hpost.
    by destruct (String.eqb_spec (status post) "scheduled").
Qed.

(** C9. Cancelling a record whose status is [scheduled] succeeds; in the
    store, the record's status becomes [cancelled] and its [updated_at]
    the time of the commit, every other column of the record keeps its
    value, and no other record and no other table changes. *)
Theorem cancel_post_frame clock db post_id post :
  posts db !! post_id = Some post ->
  status post = "scheduled" ->
  ∃ post',
    cancel_post clock db post_id
    = ({| users := users db; media_files := media_files db;
          posts := <[post_id := post']> (posts db) |},
       Json 200 (PyDict (mkdict [
         ("message", PyStr "Post cancelled successfully")]))) ∧
    status post' = "cancelled" ∧
    updated_at post' = commit_time clock ∧
    user_id post' = user_id post ∧
    media_file_id post' = media_file_id post ∧
    platform post' = platform post ∧
    title post' = title post ∧
    description post' = description post ∧
    hashtags post' = hashtags post ∧
    scheduled_time post' = scheduled_time post ∧
    Routes.post_id post' = Routes.post_id post ∧
    posted_at post' = posted_at post ∧
    error_message post' = error_message post ∧
    created_at post' = created_at post ∧
    (∀ other, other ≠ post_id ->
       posts (cancel_post clock db post_id).1 !! other = posts db !! other).
Proof.
  intros Hpost Hst. exists (cancelled clock post).
  unfold cancel_post. rewrite Hpost, Hst, String.eqb_refl. cbn [negb].
  repeat (split; [reflexivity |]).
  intros other Hne. cbn [fst posts]. by rewrite lookup_insert_ne.
Qed.

(** No sequence of requests makes a record [published]. *)
Lemma published_never_made svc requests :
  ∀ db id p,
    posts (run svc db requests) !! id = Some p -> status p = "published" ->
    posts db !! id = Some p.
Proof.
  induction requests as [| [clock a] rest IH]; intros db id p; [done |].
  cbn [run]. intros Hp Hst. specialize (IH _ _ _ Hp Hst).
  apply step_lookup in IH as [Hold | [[_ Hs] | (_ & post & _ & _ & ->)]];
    [done | congruence | discriminate].
Qed.

End Posts.

(** ** Scheduling *)

Section Scheduling.

Context `{rt : Runtime}.

Import SocialMediaService.

(** C6. For every media path, metadata, credential and scheduled time:
    through the dispatcher, the YouTube, Instagram and TikTok services
    answer a schedule request with [success = True] and a scheduling
    token of their own making under [scheduled_id], and with no [error];
    the Facebook service, where [scheduled_time.timestamp()] returns,
    builds a request that carries the scheduled time as the integer
    [int(scheduled_time.timestamp())] under [scheduled_publish_time], and
    the dispatcher returns its success with the token of Facebook; where
    [timestamp()] raises, the service builds no request and the
    dispatcher returns the failure
    ['Facebook scheduling failed: <the exception>']. *)
Theorem schedule_upload_tokens path md tok when :
  Forall (fun platform =>
    ∃ result,
      schedule_upload init platform path md tok when
        = ([ScheduleMedia platform], result) ∧
      result !! "success" = Some (PyBool true) ∧
      result !! "scheduled_id"
        = Some (PyStr ("mock_" +:+ platform +:+ "_scheduled_id")) ∧
      result !! "error" = None)
    ["youtube"; "instagram"; "tiktok"] ∧
  match timestamp when with
  | Return stamp =>
      ∃ post_data result,
        FacebookService.schedule_media_run path md tok when
          = (Some post_data, Return result) ∧
        post_data !! "scheduled_publish_time"
          = Some (PyInt (int_of_float stamp)) ∧
        post_data !! "published" = Some (PyStr "false") ∧
        schedule_upload init "facebook" path md tok when
          = ([ScheduleMedia "facebook"], result) ∧
        result !! "success" = Some (PyBool true) ∧
        result !! "scheduled_id" = Some (PyStr "mock_facebook_scheduled_id")
  | Raise e =>
      FacebookService.schedule_media_run path md tok when
        = (None,
           Return (mkdict [
             ("success", PyBool false);
             ("error", PyStr ("Facebook scheduling failed: " +:+ e))])) ∧
      schedule_upload init "facebook" path md tok when
        = ([ScheduleMedia "facebook"],
           mkdict [
             ("success", PyBool false);
             ("error", PyStr ("Facebook scheduling failed: " +:+ e))])
  end.
Proof.
  split.
  - repeat (apply Forall_cons; split;
      [eexists; split; [reflexivity |]; repeat split; reflexivity |]).
    apply Forall_nil_2.
  - unfold schedule_upload.
    replace (platforms init !! "facebook") with (Some FacebookService.service)
      by reflexivity.
    cbn [Adapter.schedule_media FacebookService.service].
    unfold FacebookService.schedule_media, FacebookService.schedule_media_run.
    destruct (timestamp when) as [stamp | e].
    + eexists _, _. repeat split; reflexivity.
    + split; reflexivity.
Qed.

End Scheduling.

(** ** File classification *)

Section Classification.

Lemma split_no_dot s : Spec.has_dot s = false -> Py.split "." s = [s].
Proof.
  induction s as [| c s IH]; cbn; [reflexivity |].
  intros [Hc Hs]%orb_false_iff. by rewrite Hc, (IH Hs).
Qed.

Lemma split_with_dot s :
  Spec.has_dot s = true ->
  ∃ piece next rest, Py.split "." s = piece :: next :: rest.
Proof.
  induction s as [| c s IH]; cbn; [discriminate |].
  destruct (Ascii.eqb c ".") eqn:Hc; cbn.
  - intros _. destruct (Spec.has_dot s) eqn:Hs.
    + destruct (IH eq_refl) as (piece & next & rest & ->). by eexists _, _, _.
    + rewrite (split_no_dot s Hs). by eexists _, _, _.
  - intros Hs. destruct (IH Hs) as (piece & next & rest & ->).
    by eexists _, _, _.
Qed.

Lemma extension_without_dot s : Spec.has_dot s = false -> Spec.extension s = s.
Proof.
  destruct s as [| c s]; cbn; [reflexivity |].
  by intros [-> ->]%orb_false_iff.
Qed.

(** The last piece of [split('.')] is the extension of the
    specification. *)
Lemma last_piece_extension s :
  Py.last_piece (Py.split "." s) = Spec.extension s.
Proof.
  unfold Py.last_piece.
  induction s as [| c s IH]; [reflexivity |].
  cbn [Py.split Spec.extension].
  destruct (Spec.has_dot s) eqn:Hs.
  - destruct (split_with_dot s Hs) as (piece & next & rest & Hsplit).
    rewrite Hsplit in IH |- *. by destruct (Ascii.eqb c ".").
  - rewrite (split_no_dot s Hs).
    by destruct (Ascii.eqb c ".").
Qed.

(** The extension holds no ['.'], and a path with a ['.'] is a stem, a
    ['.'] and the extension. *)
Lemma extension_has_no_dot s : Spec.has_dot (Spec.extension s) = false.
Proof.
  induction s as [| c s IH]; [reflexivity |].
  cbn [Spec.extension]. destruct (Spec.has_dot s) eqn:Hs; [exact IH |].
  destruct (Ascii.eqb c ".") eqn:Hc; [exact Hs |].
  cbn. by rewrite Hc, Hs.
Qed.

Lemma extension_after_stem s :
  Spec.has_dot s = true -> ∃ stem, s = stem +:+ "." +:+ Spec.extension s.
Proof.
  induction s as [| c s IH]; cbn [Spec.has_dot Spec.extension];
    [discriminate |].
  destruct (Spec.has_dot s) eqn:Hs.
  - intros _. destruct (IH eq_refl) as [stem Hstem].
    exists (String c stem). by rewrite Hstem at 1.
  - rewrite orb_false_r. intros Hc. rewrite Hc.
    apply Ascii.eqb_eq in Hc as ->. by exists "".
Qed.

Lemma is_video_extension path : is_video path = Spec.video_extension path.
Proof.
  unfold is_video, file_extension, Spec.video_extension, Py.in_list.
  rewrite last_piece_extension. cbn [existsb].
  destruct (String.eqb _ "mp4"), (String.eqb _ "mov"), (String.eqb _ "avi");
    reflexivity.
Qed.

Example classify_samples :
  is_video "video.mp4" = true ∧ is_video "clip.mov" = true ∧
  is_video "movie.avi" = true ∧ is_video "photo.png" = false ∧
  is_video "pic.jpg" = false ∧ is_video "README" = false ∧
  is_video "CLIP.MP4" = true ∧ is_video "archive.mp4.zip" = false ∧
  is_video "notes.mp4/draft" = false.
Proof. repeat split; reflexivity. Qed.

(** C7, as amended. For every media path, the Instagram, Facebook and
    TikTok services classify the asset from its file extension (the text
    after the last ['.'], whatever its case): a path whose extension is
    [mp4], [mov] or [avi] takes the video branch of the service's request,
    every other path, one without an extension among them, the
    image/photo branch.  The YouTube service does not classify: it
    prepares its video metadata for every path. *)
Theorem upload_request_shapes `{rt : Runtime} path md tok :
  let video := Spec.video_extension path in
  let shape := if video then Spec.VideoRequest else Spec.PhotoRequest in
  (request_shape Spec.Instagram path = shape ∧
   request_shape Spec.Facebook path = shape ∧
   request_shape Spec.TikTok path = shape) ∧
  (InstagramService.container_data path md tok !! "video_url"
     = (if video then Some (Py.get md "media_url") else None) ∧
   InstagramService.container_data path md tok !! "media_type"
     = (if video then Some (PyStr "VIDEO") else None) ∧
   InstagramService.container_data path md tok !! "image_url"
     = (if video then None else Some (Py.get md "media_url"))) ∧
  (FacebookService.endpoint path md
     = "https://graph.facebook.com/v23.0/"
       +:+ py_str (FacebookService.page_id md)
       +:+ (if video then "/videos" else "/photos") ∧
   FacebookService.post_data path md tok !! "url"
     = (if video then None else Some (Py.get md "media_url")) ∧
   FacebookService.post_data path md tok !! "message"
     = (if video then None
        else Some (Py.get_default md "description" (PyStr "")))) ∧
  (TikTokService.endpoint path
     = (if video
        then "https://open.tiktokapis.com/v2/post/publish/video/init/"
        else "https://open.tiktokapis.com/v2/post/publish/content/init/") ∧
   TikTokService.post_data path md !! "media_type"
     = (if video then None else Some (PyStr "PHOTO"))) ∧
  request_shape Spec.YouTube path = Spec.VideoRequest.
Proof.
  cbn zeta.
  unfold request_shape, InstagramService.container_data,
    FacebookService.endpoint, FacebookService.post_data,
    TikTokService.endpoint, TikTokService.post_data.
  rewrite (is_video_extension path).
  destruct (Spec.video_extension path); repeat split; reflexivity.
Qed.

(** C7, as stated, fails at the YouTube service: it has no photo branch. *)
Lemma every_adapter_classifies_fails : ¬ every_adapter_classifies.
Proof.
  intros Hclaim. specialize (Hclaim Spec.YouTube "photo.png").
  vm_compute in Hclaim. discriminate.
Qed.

End Classification.

(** ** Content generation *)

Section Content.

Context `{rt : Runtime}.

Lemma take_chars_prefix n s : ∃ rest, s = Py.take_chars n s +:+ rest.
Proof.
  revert n; induction s as [| c s IH]; intros n; [by exists "" |].
  cbn [Py.take_chars]. destruct (Py.is_continuation c).
  - destruct (IH n) as [rest Hrest]. exists rest. by rewrite Hrest at 1.
  - destruct n as [| n]; [by exists (String c s) |].
    destruct (IH n) as [rest Hrest]. exists rest. by rewrite Hrest at 1.
Qed.

Lemma take_chars_len n s :
  Py.len (Py.take_chars n s) = Nat.min n (Py.len s).
Proof.
  revert n; induction s as [| c s IH]; intros n;
    [by destruct n |].
  cbn [Py.take_chars Py.len].
  destruct (Py.is_continuation c) eqn:Hc.
  - cbn [Py.len]. by rewrite Hc.
  - destruct n as [| n]; [reflexivity |].
    cbn [Py.len]. by rewrite Hc, IH.
Qed.

(** What content generation returns for a response text, with the API
    key configured, by the outcome of [json.loads]. *)
Lemma generate_by_decoding self ai_response media_info platform
    custom_prompt :
  AIService.has_key self = true ->
  AIService.generate_social_media_content self (Return ai_response)
    media_info platform custom_prompt
  = match json_loads ai_response with
    | Decoded content_data => content_data
    | JSONDecodeError _ =>
        AIService.content (Py.take_chars 500 ai_response)
          ["#viral"; "#trending"; "#content"] "Peak hours: 7-9 PM"
    | DecodingFailed _ =>
        AIService._get_mock_social_content media_info platform
    end.
Proof.
  intros Hkey. unfold AIService.generate_social_media_content.
  by rewrite Hkey.
Qed.

(** C8, amended. With the API key configured, content generation returns
    a result for every response text.  Where [json.loads] raises
    [JSONDecodeError], the caption is the first 500 characters of the
    response (the whole response when it is shorter), the hashtags are
    [#viral], [#trending], [#content], and the suggested time is the
    fixed hint.  Where [json.loads] raises another exception, the result
    is the template content of the platform, and not the truncated
    response.  Where it decodes, the result is the decoded value. *)
Theorem parse_failure_fallbacks self ai_response media_info platform
    custom_prompt :
  AIService.has_key self = true ->
  match json_loads ai_response with
  | JSONDecodeError _ =>
      ∃ caption,
        AIService.generate_social_media_content self (Return ai_response)
          media_info platform custom_prompt
        = PyDict (mkdict [
            ("caption", PyStr caption);
            ("hashtags",
               PyList [PyStr "#viral"; PyStr "#trending"; PyStr "#content"]);
            ("suggested_time", PyStr "Peak hours: 7-9 PM")]) ∧
        caption = Py.take_chars 500 ai_response ∧
        (∃ rest, ai_response = caption +:+ rest) ∧
        Py.len caption = Nat.min 500 (Py.len ai_response)
  | DecodingFailed _ =>
      AIService.generate_social_media_content self (Return ai_response)
        media_info platform custom_prompt
      = AIService._get_mock_social_content media_info platform
  | Decoded content_data =>
      AIService.generate_social_media_content self (Return ai_response)
        media_info platform custom_prompt
      = content_data
  end.
Proof.
  intros Hkey.
  rewrite (generate_by_decoding _ _ _ _ _ Hkey).
  destruct (json_loads ai_response) as [v | msg | msg]; [done | | done].
  exists (Py.take_chars 500 ai_response).
  split; [reflexivity |]. split; [reflexivity |].
  split; [apply take_chars_prefix | apply take_chars_len].
Qed.

End Content.

Section DeepResponse.

#[local] Existing Instance example_runtime_deep.

(** C8, as stated, fails: a response that opens a hundred thousand arrays
    is not well-formed, [json.loads] gives up on it with a
    [RecursionError], which is not a [JSONDecodeError], and the result is
    the template content of the platform. *)
Lemma parse_failure_falls_back_fails : ¬ parse_failure_falls_back.
Proof.
  intros Hclaim.
  specialize (Hclaim (AIService.mk (Some "sk-test"))
                deep_response ∅ "youtube" "").
  assert (Hkey : AIService.has_key (AIService.mk (Some "sk-test")) = true)
    by reflexivity.
  assert (Hfails : ∀ v, json_loads deep_response ≠ Decoded v).
  { intros v. vm_compute. discriminate. }
  specialize (Hclaim Hkey Hfails).
  apply (f_equal (fun v => match v with
                           | PyDict d => d !! "suggested_time"
                           | _ => None
                           end)) in Hclaim.
  vm_compute in Hclaim. discriminate.
Qed.

End DeepResponse.

(** ** Worked instances *)

Section Witnesses.

#[local] Existing Instance example_runtime.

Lemma unsupported_platform_rejected_witness :
  ("myspace" ∉ Spec.supported_platforms) ∧
  (SocialMediaService.upload_to_platform
     SocialMediaService.init "myspace"
     "/srv/app/uploads/5f0c.mp4" ∅ "token"
   = ([], mkdict [("success", PyBool false);
                  ("error", PyStr ("Unsupported platform: " +:+ "myspace"))]) ∧
   let data := {| Routes.up_media_file_id := Some 1;
                  Routes.up_platform := Some "myspace";
                  Routes.up_access_token := Some "token";
                  Routes.up_metadata := None |} in
   (Routes.upload_to_platform SocialMediaService.init
      example_clock example_db data).1 = example_db ∧
   ((Routes.upload_to_platform SocialMediaService.init
       example_clock example_db data).2
     = Routes.Json 400 (Routes.error_body
         "media_file_id, platform, and access_token are required") ∨
    (Routes.upload_to_platform SocialMediaService.init
       example_clock example_db data).2 = Routes.Abort 404 ∨
    (Routes.upload_to_platform SocialMediaService.init
       example_clock example_db data).2
     = Routes.Json 400 (PyDict (SocialMediaService.unsupported "myspace")))).
Proof.
  assert (Hout : "myspace" ∉ Spec.supported_platforms)
    by (unfold Spec.supported_platforms; rewrite !not_elem_of_cons;
        repeat split; try discriminate; apply not_elem_of_nil).
  split;
    [exact Hout
    | apply (unsupported_platform_rejected "myspace"
               "/srv/app/uploads/5f0c.mp4" ∅ "token" example_clock example_db
               (Some 1) (Some "token") None Hout)].
Defined.

Lemma publish_not_persisted_witness :
  (1 ≠ 0 ∧ "token" ≠ "" ∧
   Routes.media_files example_db !! 1 = Some example_media ∧
   "youtube" ∈ Spec.supported_platforms) ∧
  let data := {| Routes.up_media_file_id := Some 1;
                 Routes.up_platform := Some "youtube";
                 Routes.up_access_token := Some "token";
                 Routes.up_metadata := None |} in
  let result :=
    (SocialMediaService.upload_to_platform SocialMediaService.init "youtube"
       (Routes.file_path example_media) (Routes.metadata_of None)
       "token").2 in
  ∃ key id,
    result !! "success" = Some (PyBool true) ∧
    key ∈ Spec.id_fields ∧ result !! key = Some (PyStr id) ∧ id ≠ "" ∧
    (list_to_map
       (Routes.published_kwargs example_clock example_media 1 "youtube"
          (Routes.metadata_of None) result) : gmap string Routes.Val)
      !! "platform_post_id"
    = Some (Routes.VPy (if String.eqb "youtube" "tiktok" then PyNone
                        else PyStr id)) ∧
    Routes.upload_to_platform SocialMediaService.init example_clock
      example_db data
    = (example_db,
       Routes.Json 500 (Routes.error_body
         "Upload failed: 'platform_post_id' is an invalid keyword argument for SocialMediaPost")).
Proof.
  assert (H1 : 1 ≠ 0) by lia.
  assert (H2 : "token" ≠ "") by discriminate.
  assert (H3 : Routes.media_files example_db !! 1 = Some example_media)
    by reflexivity.
  assert (H4 : "youtube" ∈ Spec.supported_platforms)
    by apply list_elem_of_here.
  split;
    [by repeat split
    | apply (publish_not_persisted (rt := example_runtime)
               example_clock example_db 1 example_media "youtube" "token"
               None H1 H2 H3 H4)].
Defined.

Lemma cancel_post_frame_witness :
  (Routes.posts example_db !! 1 = Some example_post ∧
   Routes.status example_post = "scheduled") ∧
  ∃ post',
    Routes.cancel_post example_clock example_db 1
    = ({| Routes.users := Routes.users example_db;
          Routes.media_files := Routes.media_files example_db;
          Routes.posts := <[1 := post']> (Routes.posts example_db) |},
       Routes.Json 200 (PyDict (mkdict [
         ("message", PyStr "Post cancelled successfully")]))) ∧
    Routes.status post' = "cancelled" ∧
    Routes.updated_at post' = Routes.commit_time example_clock ∧
    Routes.user_id post' = Routes.user_id example_post ∧
    Routes.media_file_id post' = Routes.media_file_id example_post ∧
    Routes.platform post' = Routes.platform example_post ∧
    Routes.title post' = Routes.title example_post ∧
    Routes.description post' = Routes.description example_post ∧
    Routes.hashtags post' = Routes.hashtags example_post ∧
    Routes.scheduled_time post' = Routes.scheduled_time example_post ∧
    Routes.post_id post' = Routes.post_id example_post ∧
    Routes.posted_at post' = Routes.posted_at example_post ∧
    Routes.error_message post' = Routes.error_message example_post ∧
    Routes.created_at post' = Routes.created_at example_post ∧
    (∀ other, other ≠ 1 ->
       Routes.posts (Routes.cancel_post example_clock example_db 1).1 !! other
       = Routes.posts example_db !! other).
Proof.
  assert (H1 : Routes.posts example_db !! 1 = Some example_post)
    by reflexivity.
  assert (H2 : Routes.status example_post = "scheduled") by reflexivity.
  split;
    [by split
    | apply (cancel_post_frame example_clock example_db 1 example_post
               H1 H2)].
Defined.

Lemma post_status_transitions_witness :
  let svc := SocialMediaService.init in
  let a := Routes.CancelPost 1 in
  let p := Routes.cancelled example_clock example_post in
  Routes.posts (Routes.step svc example_clock example_db a).1 !! 1 = Some p ∧
  (Routes.status p = "published" -> Routes.posts example_db !! 1 = Some p) ∧
  (Routes.status p = "cancelled" ->
     Routes.posts example_db !! 1 = Some p ∨
     (a = Routes.CancelPost 1 ∧
      ∃ post, Routes.posts example_db !! 1 = Some post ∧
              Routes.status post = "scheduled" ∧
              p = Routes.cancelled example_clock post)).
Proof.
  intros svc a p.
  assert (H : Routes.posts (Routes.step svc example_clock example_db a).1
                !! 1 = Some p) by reflexivity.
  split;
    [exact H
    | apply (proj1 (post_status_transitions svc example_clock example_db a)
               1 p H)].
Defined.

Lemma parse_failure_fallbacks_witness :
  let self := AIService.mk (Some "sk-example") in
  let ai_response := "Here is a caption for your video: Sunset at the pier!" in
  let media_info :=
    mkdict [("filename", PyStr "holiday.mp4"); ("file_type", PyStr "video");
            ("mime_type", PyStr "video/mp4")] in
  AIService.has_key self = true ∧
  json_loads ai_response
    = JSONDecodeError "Expecting value: line 1 column 1 (char 0)" ∧
  ∃ caption,
    AIService.generate_social_media_content self (Return ai_response)
      media_info "instagram" ""
    = PyDict (mkdict [
        ("caption", PyStr caption);
        ("hashtags",
           PyList [PyStr "#viral"; PyStr "#trending"; PyStr "#content"]);
        ("suggested_time", PyStr "Peak hours: 7-9 PM")]) ∧
    caption = Py.take_chars 500 ai_response ∧
    (∃ rest, ai_response = caption +:+ rest) ∧
    Py.len caption = Nat.min 500 (Py.len ai_response).
Proof.
  intros self ai_response media_info.
  assert (H1 : AIService.has_key self = true) by reflexivity.
  split; [exact H1 |]. split; [reflexivity |].
  exact (parse_failure_fallbacks self ai_response media_info
           "instagram" "" H1).
Defined.

End Witnesses.

(** * Further properties of the code *)

(** ** The advisor's slots *)

Section AdvisorSlots.

Import ViralTimeService.

(** X3. The advisor has entries for the four lowercase names and for no other
    spelling. *)
Theorem get_optimal_times_keys platform :
  (get_optimal_times platform = [] <-> platform ∉ Spec.supported_platforms) ∧
  (platform ∈ Spec.supported_platforms ->
   length (get_optimal_times platform) = 3%nat).
Proof.
  split; [split |].
  - intros Hnil Hin. apply get_optimal_times_supported in Hin.
    by rewrite Hnil in Hin.
  - apply get_optimal_times_unknown.
  - apply get_optimal_times_supported.
Qed.

(** X1. For a platform with entries, the suggested time has its clock hour in
    [11..21]; it is the candidate [now + 2 hours] or a time at 11:00:00
    sharp. *)
Theorem suggested_hour_in_window platform now :
  datetime.wf now ->
  get_optimal_times platform ≠ [] ->
  let result := suggest_next_optimal_time platform now in
  11 <= datetime.hour result <= 21 ∧
  (result = datetime.add now (timedelta.of_hours 2) ∨
   (datetime.hour result = 11 ∧ datetime.minute result = 0 ∧
    datetime.second result = 0 ∧ datetime.microsecond result = 0)).
Proof.
  intros Hnow Hentries. cbn zeta. unfold suggest_next_optimal_time.
  destruct (get_optimal_times platform) as [| e entries]; [done |].
  set (cand := datetime.add now (timedelta.of_hours 2)).
  destruct (Z.ltb_spec (datetime.hour cand) 11) as [Hlo | Hlo];
    [| destruct (Z.leb_spec (datetime.hour cand) 21) as [Hhi | Hhi]].
  - cbn [orb]. destruct (datetime.leb _ now).
    + assert (Hsharp :
        let r := datetime.add (datetime.replace_clock cand 11 0 0 0)
                   (timedelta.of_days 1) in
        datetime.hour r = 11 ∧ datetime.minute r = 0 ∧
        datetime.second r = 0 ∧ datetime.microsecond r = 0).
      { unfold datetime.add, timedelta.add, timedelta.of_days, timedelta.new;
          cbn. repeat split. }
      cbn zeta in Hsharp. split; [lia | by right].
    + cbn. split; [lia | by right].
  - replace (datetime.hour cand >? 21) with false
      by (symmetry; rewrite Z.gtb_ltb; apply Z.ltb_ge; lia).
    cbn [orb]. split; [lia | by left].
  - replace (datetime.hour cand >? 21) with true
      by (symmetry; rewrite Z.gtb_ltb; apply Z.ltb_lt; lia).
    rewrite orb_true_r. destruct (datetime.leb _ now).
    + assert (Hsharp :
        let r := datetime.add (datetime.replace_clock cand 11 0 0 0)
                   (timedelta.of_days 1) in
        datetime.hour r = 11 ∧ datetime.minute r = 0 ∧
        datetime.second r = 0 ∧ datetime.microsecond r = 0).
      { unfold datetime.add, timedelta.add, timedelta.of_days, timedelta.new;
          cbn. repeat split. }
      cbn zeta in Hsharp. split; [lia | by right].
    + cbn. split; [lia | by right].
Qed.

Lemma suggested_hour_in_window_witness :
  (datetime.wf (datetime.mk 739007 22 40 12 5) ∧
   get_optimal_times "facebook" ≠ []) ∧
  let result :=
    suggest_next_optimal_time "facebook" (datetime.mk 739007 22 40 12 5) in
  11 <= datetime.hour result <= 21 ∧
  (result = datetime.add (datetime.mk 739007 22 40 12 5)
              (timedelta.of_hours 2) ∨
   (datetime.hour result = 11 ∧ datetime.minute result = 0 ∧
    datetime.second result = 0 ∧ datetime.microsecond result = 0)).
Proof.
  assert (H1 : datetime.wf (datetime.mk 739007 22 40 12 5))
    by (unfold datetime.wf; simpl; lia).
  assert (H2 : get_optimal_times "facebook" ≠ []) by discriminate.
  split;
    [by split
    | apply (suggested_hour_in_window "facebook" _ H1 H2)].
Defined.

(** The time line of the specification: between 2 and 15 hours ahead. *)
Lemma nextOptimalTime_delay entries now :
  now + 2 * Spec.us_per_hour <= Spec.nextOptimalTime entries now
  <= now + 15 * Spec.us_per_hour.
Proof.
  unfold Spec.nextOptimalTime, Spec.clock_hour, Spec.us_per_day,
    Spec.us_per_hour.
  destruct entries; [lia |].
  destruct (Z.leb_spec 11 ((now + 2 * 3600000000) / 3600000000 mod 24));
    cbn [andb].
  - destruct (Z.leb_spec ((now + 2 * 3600000000) / 3600000000 mod 24) 21);
      [lia |].
    destruct (Z.leb_spec
      ((now + 2 * 3600000000) / 86400000000 * 86400000000 + 11 * 3600000000)
      now); Z.to_euclidean_division_equations; lia.
  - destruct (Z.leb_spec
      ((now + 2 * 3600000000) / 86400000000 * 86400000000 + 11 * 3600000000)
      now); Z.to_euclidean_division_equations; lia.
Qed.

(** X2. For every platform string, the suggested time is at least 2 hours and
    at most 15 hours after [now]. *)
Theorem suggested_delay_bounds platform now :
  datetime.wf now ->
  let result := suggest_next_optimal_time platform now in
  datetime.to_us now + 2 * Spec.us_per_hour <= datetime.to_us result
  <= datetime.to_us now + 15 * Spec.us_per_hour.
Proof.
  intros Hnow. cbn zeta.
  rewrite (suggest_next_optimal_time_to_us platform now Hnow).
  apply nextOptimalTime_delay.
Qed.

Lemma suggested_delay_bounds_witness :
  datetime.wf (datetime.mk 739007 20 0 0 0) ∧
  let result :=
    suggest_next_optimal_time "youtube" (datetime.mk 739007 20 0 0 0) in
  datetime.to_us (datetime.mk 739007 20 0 0 0) + 2 * Spec.us_per_hour
  <= datetime.to_us result
  <= datetime.to_us (datetime.mk 739007 20 0 0 0) + 15 * Spec.us_per_hour.
Proof.
  assert (H1 : datetime.wf (datetime.mk 739007 20 0 0 0))
    by (unfold datetime.wf; simpl; lia).
  split; [exact H1 | apply (suggested_delay_bounds "youtube" _ H1)].
Defined.

End AdvisorSlots.

(** ** What the classification looks at *)

Section ExtensionOnly.

Lemma lower_char_dot c : Ascii.eqb (Py.lower_char c) "." = Ascii.eqb c ".".
Proof. by destruct c as [[] [] [] [] [] [] [] []]. Qed.

Lemma has_dot_lower s : Spec.has_dot (Py.lower s) = Spec.has_dot s.
Proof.
  induction s as [| c s IH]; [reflexivity |].
  cbn. by rewrite lower_char_dot, IH.
Qed.

Lemma extension_lower s :
  Spec.extension (Py.lower s) = Py.lower (Spec.extension s).
Proof.
  induction s as [| c s IH]; [reflexivity |].
  cbn [Py.lower Spec.extension].
  rewrite has_dot_lower, lower_char_dot.
  destruct (Spec.has_dot s); [exact IH |].
  by destruct (Ascii.eqb c ".").
Qed.

Lemma file_extension_lower path :
  file_extension path = Spec.extension (Py.lower path).
Proof.
  unfold file_extension. by rewrite last_piece_extension, extension_lower.
Qed.

(** X4. The classification does not see the case of the path: two paths that
    agree up to the case of their letters are classified alike. *)
Theorem is_video_ignores_case p q :
  Py.lower p = Py.lower q -> is_video p = is_video q.
Proof.
  intros Heq. unfold is_video. by rewrite !file_extension_lower, Heq.
Qed.

Lemma is_video_ignores_case_witness :
  Py.lower "Clip.MOV" = Py.lower "clip.mov" ∧
  is_video "Clip.MOV" = is_video "clip.mov".
Proof.
  assert (H : Py.lower "Clip.MOV" = Py.lower "clip.mov") by reflexivity.
  split; [exact H | apply (is_video_ignores_case _ _ H)].
Defined.

Lemma append_cons c s t : String c s +:+ t = String c (s +:+ t).
Proof. reflexivity. Qed.

Lemma has_dot_after_stem stem ext :
  Spec.has_dot (stem +:+ "." +:+ ext) = true.
Proof.
  induction stem as [| c stem IH]; [reflexivity |].
  rewrite append_cons. cbn [Spec.has_dot]. by rewrite IH, orb_true_r.
Qed.

Lemma extension_after_last_dot stem ext :
  Spec.has_dot ext = false -> Spec.extension (stem +:+ "." +:+ ext) = ext.
Proof.
  intros Hext. induction stem as [| c stem IH].
  - change ("" +:+ "." +:+ ext) with (String "." ext).
    cbn [Spec.extension]. by rewrite Hext.
  - rewrite append_cons. cbn [Spec.extension].
    by rewrite has_dot_after_stem.
Qed.

(** X5. The classification looks at nothing but the text after the last
    ['.']: whatever stands before it, directories with dots included, the
    path is classified as its extension alone would be. *)
Theorem is_video_extension_only stem ext :
  Spec.has_dot ext = false ->
  is_video (stem +:+ "." +:+ ext) = is_video ext.
Proof.
  intros Hext. unfold is_video, file_extension.
  by rewrite !last_piece_extension, (extension_after_last_dot _ _ Hext),
    (extension_without_dot _ Hext).
Qed.

Lemma is_video_extension_only_witness :
  Spec.has_dot "Mp4" = false ∧
  is_video ("/srv/app.v2/uploads/5f0c.tar" +:+ "." +:+ "Mp4") = is_video "Mp4".
Proof.
  assert (H : Spec.has_dot "Mp4" = false) by reflexivity.
  split; [exact H | apply (is_video_extension_only _ _ H)].
Defined.

End ExtensionOnly.

(** ** File names in the upload route *)

Section FileNames.

Import MediaRoutes.

Lemma contains_dot s : PyText.contains "." s = Spec.has_dot s.
Proof.
  induction s as [| c s IH]; [reflexivity |].
  cbn. rewrite IH, andb_true_r. by rewrite Ascii.eqb_sym.
Qed.

Lemma rsplit1_no_dot s :
  Spec.has_dot s = false -> PyText.rsplit1 "." s = [s].
Proof.
  induction s as [| c s IH]; [reflexivity |].
  cbn. intros [Hc Hs]%orb_false_iff. by rewrite (IH Hs), Hc.
Qed.

Lemma rsplit1_with_dot s :
  Spec.has_dot s = true ->
  ∃ stem, PyText.rsplit1 "." s = [stem; Spec.extension s].
Proof.
  induction s as [| c s IH]; [discriminate |].
  cbn [Spec.has_dot Spec.extension PyText.rsplit1].
  destruct (Spec.has_dot s) eqn:Hs.
  - intros _. destruct (IH eq_refl) as [stem ->]. by exists (String c stem).
  - rewrite orb_false_r. intros Hc.
    rewrite (rsplit1_no_dot s Hs), Hc. by exists "".
Qed.

Lemma in_list_elem x l : Py.in_list x l = true <-> x ∈ l.
Proof.
  unfold Py.in_list. rewrite existsb_exists. split.
  - intros (y & Hy & ->%String.eqb_eq). by apply list_elem_of_In.
  - intros Hx. exists x. split; [by apply list_elem_of_In |].
    apply String.eqb_refl.
Qed.

(** The two readings of the extension agree: with a ['.'] in the name,
    [rsplit('.', 1)[1].lower()] of the route is [split('.')[-1].lower()]
    of the services. *)
Lemma item1_rsplit1 filename :
  Spec.has_dot filename = true ->
  PyText.item1 (PyText.rsplit1 "." filename)
  = Return (Spec.extension filename).
Proof.
  intros Hdot. by destruct (rsplit1_with_dot filename Hdot) as [stem ->].
Qed.

(** [allowed_file] in terms of the extension the services read. *)
Lemma allowed_file_eq filename :
  allowed_file filename
  = Return (PyText.contains "." filename
            && Py.in_list (file_extension filename) ALLOWED_EXTENSIONS).
Proof.
  unfold allowed_file, file_extension. rewrite contains_dot.
  destruct (Spec.has_dot filename) eqn:Hdot; [| reflexivity].
  by rewrite (item1_rsplit1 _ Hdot), last_piece_extension.
Qed.

(** X6. [allowed_file] never raises: the test for a ['.'] guards the index.
    It accepts a name exactly when the name has a ['.'] and the extension
    the services read is one of the eight allowed ones. *)
Theorem allowed_file_decides filename :
  allowed_file filename
  = Return (PyText.contains "." filename
            && Py.in_list (file_extension filename) ALLOWED_EXTENSIONS).
Proof. apply allowed_file_eq. Qed.

(** X7. A name without a ['.'] is refused, and [get_file_type] raises
    [IndexError] on it. *)
Theorem no_dot_refused filename :
  PyText.contains "." filename = false ->
  allowed_file filename = Return false ∧
  get_file_type filename = Raise "list index out of range".
Proof.
  intros Hdot. unfold allowed_file, get_file_type. rewrite Hdot.
  rewrite contains_dot in Hdot. by rewrite (rsplit1_no_dot _ Hdot).
Qed.

Lemma no_dot_refused_witness :
  PyText.contains "." "README" = false ∧
  (allowed_file "README" = Return false ∧
   get_file_type "README" = Raise "list index out of range").
Proof.
  assert (H : PyText.contains "." "README" = false) by reflexivity.
  split; [exact H | apply (no_dot_refused _ H)].
Defined.

Lemma get_file_type_with_dot filename :
  Spec.has_dot filename = true ->
  get_file_type filename
  = let ext := file_extension filename in
    if Py.in_list ext ["png"; "jpg"; "jpeg"; "gif"] then Return "image"
    else if Py.in_list ext ["mp4"; "avi"; "mov"; "wmv"] then Return "video"
    else Return "unknown".
Proof.
  intros Hdot. unfold get_file_type, file_extension.
  by rewrite (item1_rsplit1 _ Hdot), last_piece_extension.
Qed.

Lemma allowed_file_inv filename :
  allowed_file filename = Return true ->
  Spec.has_dot filename = true ∧
  file_extension filename ∈ ALLOWED_EXTENSIONS.
Proof.
  rewrite allowed_file_eq, contains_dot.
  intros [= [Hdot Hin]%andb_true_iff]. split; [done |].
  by apply in_list_elem.
Qed.

(** X8. On every name [allowed_file] accepts, [get_file_type] returns
    [image] or [video]: it does not raise and never answers [unknown]. *)
Theorem allowed_file_typed filename :
  allowed_file filename = Return true ->
  get_file_type filename = Return "image" ∨
  get_file_type filename = Return "video".
Proof.
  intros [Hdot Hin]%allowed_file_inv.
  rewrite (get_file_type_with_dot _ Hdot). cbn zeta.
  unfold ALLOWED_EXTENSIONS in Hin.
  repeat (apply elem_of_cons in Hin as [-> | Hin]; [cbn; tauto |]).
  by apply elem_of_nil in Hin.
Qed.

Lemma allowed_file_typed_witness :
  allowed_file "Holiday.JPEG" = Return true ∧
  (get_file_type "Holiday.JPEG" = Return "image" ∨
   get_file_type "Holiday.JPEG" = Return "video").
Proof.
  assert (H : allowed_file "Holiday.JPEG" = Return true) by reflexivity.
  split; [exact H | apply (allowed_file_typed _ H)].
Defined.

(** X9. The route and the services disagree on one allowed extension only:
    an accepted file is stored as [video] and yet takes the photo branch
    of the services exactly when its extension is [wmv]. *)
Theorem wmv_stored_as_video_sent_as_photo filename :
  allowed_file filename = Return true ->
  (get_file_type filename = Return "video" ∧ is_video filename = false)
  <-> file_extension filename = "wmv".
Proof.
  intros [Hdot Hin]%allowed_file_inv.
  rewrite (get_file_type_with_dot _ Hdot). cbn zeta. unfold is_video.
  unfold ALLOWED_EXTENSIONS in Hin.
  repeat (apply elem_of_cons in Hin as [-> | Hin];
    [cbn; split; [intros [H1 H2]; discriminate || done | done] |]).
  by apply elem_of_nil in Hin.
Qed.

Lemma wmv_stored_as_video_sent_as_photo_witness :
  allowed_file "party.wmv" = Return true ∧
  ((get_file_type "party.wmv" = Return "video" ∧ is_video "party.wmv" = false)
   <-> file_extension "party.wmv" = "wmv").
Proof.
  assert (H : allowed_file "party.wmv" = Return true) by reflexivity.
  split; [exact H | apply (wmv_stored_as_video_sent_as_photo _ H)].
Defined.

End FileNames.

(** ** The store across the routes *)

Section Store.

Context `{rt : Runtime}.

Import Routes.

Lemma add_post_subseteq db post : posts db ⊆ posts (add_post db post).
Proof. apply insert_subseteq, new_id_fresh. Qed.

Lemma add_post_size db post :
  size (posts (add_post db post)) = S (size (posts db)).
Proof. apply map_size_insert_None, new_id_fresh. Qed.

(** The loop of the schedule route does not fail: the constructor accepts
    its keywords and the columns that may not be null have their value. *)
Lemma add_scheduled_returns clock data uid mfid when platforms :
  ∀ db, ∃ db' created,
    add_scheduled clock data uid mfid when platforms db
      = Return (db', created) ∧
    length created = length platforms.
Proof.
  induction platforms as [| platform rest IH]; intros db;
    cbn [add_scheduled]; [by eexists _, _ |].
  rewrite create_scheduled.
  destruct (IH (add_post db
    (scheduled_post clock data uid mfid platform when)))
    as (db' & created & -> & Hlen).
  eexists _, _. split; [reflexivity |]. cbn [length]. by rewrite Hlen.
Qed.

Lemma add_scheduled_subseteq clock data uid mfid when platforms :
  ∀ db db' created,
    add_scheduled clock data uid mfid when platforms db
      = Return (db', created) ->
    posts db ⊆ posts db' ∧ users db' = users db ∧
    media_files db' = media_files db.
Proof.
  induction platforms as [| platform rest IH]; intros db db' created;
    cbn [add_scheduled]; [by intros [= <- _] |].
  rewrite create_scheduled.
  destruct (add_scheduled clock data uid mfid when rest (add_post db _))
    as [[db'' created'] | e] eqn:Hrest; [| discriminate].
  intros [= <- _]. destruct (IH _ _ _ Hrest) as (Hsub & Husers & Hfiles).
  split; [| by split].
  etrans; [apply add_post_subseteq | exact Hsub].
Qed.

Lemma add_scheduled_size clock data uid mfid when platforms :
  ∀ db db' created,
    add_scheduled clock data uid mfid when platforms db
      = Return (db', created) ->
    size (posts db') = (size (posts db) + length platforms)%nat.
Proof.
  induction platforms as [| platform rest IH]; intros db db' created;
    cbn [add_scheduled]; [intros [= <- _]; cbn; lia |].
  rewrite create_scheduled.
  destruct (add_scheduled clock data uid mfid when rest (add_post db _))
    as [[db'' created'] | e] eqn:Hrest; [| discriminate].
  intros [= <- _]. rewrite (IH _ _ _ Hrest), add_post_size. cbn. lia.
Qed.

Lemma add_scheduled_each clock data uid mfid when platforms :
  ∀ db db' created,
    add_scheduled clock data uid mfid when platforms db
      = Return (db', created) ->
    Forall (fun name =>
      ∃ id p,
        posts db' !! id = Some p ∧ posts db !! id = None ∧
        p = scheduled_post clock data uid mfid name when)
      platforms.
Proof.
  induction platforms as [| platform rest IH]; intros db db' created;
    [intros _; apply Forall_nil_2 |].
  cbn [add_scheduled]. rewrite create_scheduled.
  set (post := scheduled_post clock data uid mfid platform when).
  destruct (add_scheduled clock data uid mfid when rest (add_post db post))
    as [[db'' created'] | e] eqn:Hrest; [| discriminate].
  intros [= <- _].
  pose proof (add_scheduled_subseteq _ _ _ _ _ _ _ _ _ Hrest) as (Hsub & _).
  apply Forall_cons. split.
  - exists (new_id db), post. split; [| split; [apply new_id_fresh | done]].
    eapply lookup_weaken; [| exact Hsub].
    rewrite add_post_lookup. by rewrite decide_True.
  - eapply Forall_impl; [exact (IH _ _ _ Hrest) |].
    intros name (id & p & Hp & Hnone & ->). eexists id, _.
    split; [exact Hp |]. split; [by eapply add_post_lookup_None | done].
Qed.


(** X11. Of the three routes that construct a post record, only the
    schedule route stores one.  The two platform routes leave the store
    as it was whatever the service answers, and never answer 200; the
    schedule route keeps every record that is there and touches neither
    the users nor the media files. *)
Theorem platform_routes_store_nothing svc clock db :
  (∀ data,
     (upload_to_platform svc clock db data).1 = db ∧
     ∀ body, (upload_to_platform svc clock db data).2 ≠ Json 200 body) ∧
  (∀ data,
     (schedule_platform_upload svc clock db data).1 = db ∧
     ∀ body,
       (schedule_platform_upload svc clock db data).2 ≠ Json 200 body) ∧
  (∀ data,
     posts db ⊆ posts (schedule_post clock db data).1 ∧
     users (schedule_post clock db data).1 = users db ∧
     media_files (schedule_post clock db data).1 = media_files db).
Proof.
  split; [| split]; intros data.
  - split; [apply upload_to_platform_store |]. intros body.
    unfold upload_to_platform.
    destruct (negb _); [discriminate |].
    destruct (media_files db !! _) as [media_file |]; [| discriminate].
    destruct (_ !! "success") as [success |]; [| discriminate].
    destruct (Py.truthy success); [| discriminate].
    rewrite create_published_raises. discriminate.
  - split; [apply schedule_platform_upload_store |]. intros body.
    unfold schedule_platform_upload.
    destruct (negb _); [discriminate |].
    destruct (media_files db !! _) as [media_file |]; [| discriminate].
    destruct (fromisoformat _) as [when | e]; [| discriminate].
    destruct (_ !! "success") as [success |]; [| discriminate].
    destruct (Py.truthy success); [| discriminate].
    rewrite create_scheduled_upload_raises. discriminate.
  - unfold schedule_post.
    destruct (negb _); [done |].
    destruct (negb (bool_decide _)); [done |].
    destruct (media_files db !! _) as [media_file |]; [| done].
    destruct (negb (_ =? _)); [done |].
    destruct (fromisoformat _) as [when | e]; [| done].
    destruct (add_scheduled _ _ _ _ _ _ _) as [[db' created] | e] eqn:Hadd;
      [| done].
    by eapply add_scheduled_subseteq.
Qed.

(** X12. A valid schedule request, with texts for the title and the
    description and a list or a text for the hashtags, creates one record
    for each requested platform name, whether the dispatcher knows the
    name or not: the answer is 201, every record that was there stays,
    the table grows by the number of names, and each name has a record
    under a new key with the name lowered by [str.lower] (for an ASCII
    name, its 26 letters lowered), the status [scheduled], the parsed
    time, and the user and the media file of the request. *)
Theorem schedule_post_creates clock db uid mfid media_file platforms title
    description hashtags time when :
  uid ≠ 0 -> uid ∈ users db -> mfid ≠ 0 ->
  media_files db !! mfid = Some media_file -> mf_user_id media_file = uid ->
  platforms ≠ [] -> time ≠ "" ->
  text_value title = true -> text_value description = true ->
  hashtags_value hashtags = true ->
  fromisoformat (Py.replace_char "Z" "+00:00" time) = Return when ->
  let data := {| sp_user_id := Some uid; sp_media_file_id := Some mfid;
                 sp_platforms := platforms; sp_title := title;
                 sp_description := description; sp_hashtags := hashtags;
                 sp_scheduled_time := Some time |} in
  let db' := (schedule_post clock db data).1 in
  (∃ body, (schedule_post clock db data).2 = Json 201 body) ∧
  posts db ⊆ posts db' ∧
  size (posts db') = (size (posts db) + length platforms)%nat ∧
  Forall (fun name =>
    ∃ id p,
      posts db' !! id = Some p ∧ posts db !! id = None ∧
      platform p = lower_text name ∧
      (Py.is_ascii name = true -> platform p = Py.lower name) ∧
      status p = "scheduled" ∧
      scheduled_time p = when ∧ user_id p = uid ∧
      media_file_id p = mfid)
    platforms.
Proof.
  intros Huid Huser Hmfid Hmf Hown Hplat Htime _ _ _ Hparse. cbn zeta.
  unfold schedule_post.
  cbn [sp_user_id sp_media_file_id sp_platforms sp_scheduled_time
       from_option id].
  rewrite (opt_truthy_Z_Some _ Huid), (opt_truthy_Z_Some _ Hmfid),
    (opt_truthy_str_Some _ Htime).
  destruct platforms as [| name names] eqn:Hnames; [done |].
  rewrite <- Hnames. cbn [andb negb].
  replace (match platforms with [] => false | _ :: _ => true end) with true
    by (by rewrite Hnames).
  cbn [negb]. rewrite (bool_decide_eq_true_2 _ Huser). cbn [negb].
  rewrite Hmf, Hown, Z.eqb_refl. cbn [negb]. rewrite Hparse.
  set (data := {| sp_user_id := Some uid |}).
  destruct (add_scheduled_returns clock data uid mfid when platforms db)
    as (db' & created & Hadd & _).
  rewrite Hadd. cbn [fst snd].
  split; [by eexists |].
  split; [by eapply add_scheduled_subseteq |].
  split; [by eapply add_scheduled_size |].
  eapply Forall_impl; [by eapply add_scheduled_each |].
  intros n (id & p & Hp & Hnone & ->). eexists id, _.
  split; [exact Hp |]. split; [exact Hnone |].
  cbn [platform status scheduled_time user_id media_file_id scheduled_post].
  split; [reflexivity |].
  split; [by unfold lower_text; intros -> | done].
Qed.

(** X13. Cancelling is not repeatable: after a scheduled record was cancelled,
    a second cancel request for it is refused and the store stays as the
    first one left it. *)
Theorem cancel_twice_refused clock1 clock2 db post_id post :
  posts db !! post_id = Some post ->
  status post = "scheduled" ->
  cancel_post clock2 (cancel_post clock1 db post_id).1 post_id
  = ((cancel_post clock1 db post_id).1,
     Json 400 (error_body "Can only cancel scheduled posts")).
Proof.
  intros Hpost Hst. unfold cancel_post at 2 3.
  rewrite Hpost, Hst, String.eqb_refl. cbn [negb fst].
  unfold cancel_post. cbn [posts]. by rewrite lookup_insert_eq.
Qed.

(** X14. Deleting a media file whose removal from the disk succeeds deletes
    the file's row and exactly the posts of that file; the posts of the
    other files, the other files and the users stay. *)
Theorem delete_media_file_cascades db file_id media_file :
  media_files db !! file_id = Some media_file ->
  let db' := (delete_media_file (Return tt) db file_id).1 in
  (delete_media_file (Return tt) db file_id).2 = Empty 204 ∧
  media_files db' !! file_id = None ∧
  (∀ other, other ≠ file_id ->
     media_files db' !! other = media_files db !! other) ∧
  (∀ id p, posts db' !! id = Some p <->
     posts db !! id = Some p ∧ media_file_id p ≠ file_id) ∧
  users db' = users db.
Proof.
  intros Hmf. cbn zeta. unfold delete_media_file. rewrite Hmf.
  cbn [fst snd media_files posts users].
  split; [reflexivity |]. split; [apply lookup_delete_eq |].
  split; [intros other Hne; by apply lookup_delete_ne |].
  split; [| reflexivity].
  intros id p. by rewrite map_lookup_filter_Some.
Qed.

End Store.

(** ** The dispatcher's results in the routes *)

Section Results.

Context `{rt : Runtime}.

Import SocialMediaService.

(** The [success] flag of the built-in services, method by method; the
    Facebook service alone can fail, in scheduling, where [timestamp()]
    raises. *)
Lemma init_success_flag platform path md tok when upload_id :
  let ok := bool_decide (platform ∈ Spec.supported_platforms) in
  let scheduled :=
    ok && (negb (String.eqb platform "facebook")
           || returned (timestamp when)) in
  upload_to_platform init platform path md tok = (
    (if ok then [UploadMedia platform] else []),
    (upload_to_platform init platform path md tok).2) ∧
  (upload_to_platform init platform path md tok).2 !! "success"
    = Some (PyBool ok) ∧
  schedule_upload init platform path md tok when = (
    (if ok then [ScheduleMedia platform] else []),
    (schedule_upload init platform path md tok when).2) ∧
  (schedule_upload init platform path md tok when).2 !! "success"
    = Some (PyBool scheduled) ∧
  get_upload_status init platform upload_id tok = (
    (if ok then [GetStatus platform] else []),
    (get_upload_status init platform upload_id tok).2) ∧
  (get_upload_status init platform upload_id tok).2 !! "success"
    = Some (PyBool ok).
Proof.
  cbn zeta.
  destruct (decide (platform ∈ Spec.supported_platforms)) as [Hin | Hout].
  - rewrite (bool_decide_eq_true_2 _ Hin).
    unfold Spec.supported_platforms in Hin.
    apply elem_of_cons in Hin as [-> | Hin]; [repeat split; reflexivity |].
    apply elem_of_cons in Hin as [-> | Hin]; [repeat split; reflexivity |].
    apply elem_of_cons in Hin as [-> | Hin].
    { repeat split; try reflexivity.
      unfold schedule_upload.
      replace (platforms init !! "facebook")
        with (Some FacebookService.service) by reflexivity.
      cbn [Adapter.schedule_media FacebookService.service snd].
      unfold FacebookService.schedule_media,
        FacebookService.schedule_media_run.
      by destruct (timestamp when). }
    apply elem_of_cons in Hin as [-> | Hin]; [repeat split; reflexivity |].
    by apply elem_of_nil in Hin.
  - rewrite (bool_decide_eq_false_2 _ Hout).
    unfold upload_to_platform, schedule_upload, get_upload_status.
    rewrite (init_lookup_unsupported _ Hout). repeat split; reflexivity.
Qed.

(** X15. With the built-in services, every result of the three dispatcher
    methods carries a Boolean [success], and a service method runs
    exactly for the four supported names.  For an upload and for a status
    request the flag is true exactly for those names; for a schedule
    request it is true for those names too, except that the Facebook
    service reports a failure where [timestamp()] raises. *)
Theorem success_flag_uniform platform path md tok when upload_id :
  let ok := bool_decide (platform ∈ Spec.supported_platforms) in
  let scheduled :=
    ok && (negb (String.eqb platform "facebook")
           || returned (timestamp when)) in
  upload_to_platform init platform path md tok = (
    (if ok then [UploadMedia platform] else []),
    (upload_to_platform init platform path md tok).2) ∧
  (upload_to_platform init platform path md tok).2 !! "success"
    = Some (PyBool ok) ∧
  schedule_upload init platform path md tok when = (
    (if ok then [ScheduleMedia platform] else []),
    (schedule_upload init platform path md tok when).2) ∧
  (schedule_upload init platform path md tok when).2 !! "success"
    = Some (PyBool scheduled) ∧
  get_upload_status init platform upload_id tok = (
    (if ok then [GetStatus platform] else []),
    (get_upload_status init platform upload_id tok).2) ∧
  (get_upload_status init platform upload_id tok).2 !! "success"
    = Some (PyBool ok).
Proof. apply init_success_flag. Qed.

(** X16. For a supported platform the status result names the platform, says
    [completed], and gives back the upload id it was asked about. *)
Theorem status_echoes_upload_id platform upload_id tok :
  platform ∈ Spec.supported_platforms ->
  get_upload_status init platform upload_id tok
  = ([GetStatus platform],
     mkdict [("success", PyBool true); ("platform", PyStr platform);
             ("status", PyStr "completed");
             ("upload_id", PyStr upload_id)]).
Proof.
  unfold Spec.supported_platforms; intros Hin.
  repeat (apply elem_of_cons in Hin as [-> | Hin]; [reflexivity |]).
  by apply elem_of_nil in Hin.
Qed.

Import Routes.

(** X18. A schedule request for a supported platform, with a time the
    parser reads (and, for Facebook, one where [timestamp()] returns),
    gets the scheduling token of the service under [scheduled_id], and
    yet stores nothing and answers 500: the route hands the token to the
    constructor of [SocialMediaPost] under the keyword
    [platform_post_id], which the class does not declare. *)
Theorem schedule_upload_token_not_stored clock db file_id media_file platform
    tok md time when :
  file_id ≠ 0 -> tok ≠ "" -> time ≠ "" ->
  media_files db !! file_id = Some media_file ->
  platform ∈ Spec.supported_platforms ->
  fromisoformat (Py.replace_char "Z" "+00:00" time) = Return when ->
  (platform = "facebook" -> returned (timestamp when) = true) ->
  let data := {| su_media_file_id := Some file_id;
                 su_platform := Some platform;
                 su_access_token := Some tok; su_metadata := md;
                 su_scheduled_time := Some time |} in
  let result :=
    (schedule_upload SocialMediaService.init platform (file_path media_file) (metadata_of md)
       tok when).2 in
  result !! "success" = Some (PyBool true) ∧
  result !! "scheduled_id"
    = Some (PyStr ("mock_" +:+ platform +:+ "_scheduled_id")) ∧
  (list_to_map
     (scheduled_upload_kwargs media_file file_id platform (metadata_of md)
        result when) : gmap string Val) !! "platform_post_id"
    = Some (VPy (PyStr ("mock_" +:+ platform +:+ "_scheduled_id"))) ∧
  schedule_platform_upload SocialMediaService.init clock db data
  = (db,
     Json 500 (error_body
       "Scheduling failed: 'platform_post_id' is an invalid keyword argument for SocialMediaPost")).
Proof.
  intros Hid Htok Htime Hmf Hin Hparse Hstamp. cbn zeta.
  unfold schedule_platform_upload.
  cbn [su_media_file_id su_platform su_access_token su_metadata
       su_scheduled_time from_option id].
  rewrite (opt_truthy_Z_Some _ Hid), (opt_truthy_str_Some _ Htok),
    (opt_truthy_str_Some _ Htime), Hmf, Hparse.
  unfold Spec.supported_platforms in Hin.
  apply elem_of_cons in Hin as [-> | Hin]; [repeat split; reflexivity |].
  apply elem_of_cons in Hin as [-> | Hin]; [repeat split; reflexivity |].
  apply elem_of_cons in Hin as [-> | Hin].
  { specialize (Hstamp eq_refl).
    unfold schedule_upload.
    replace (platforms SocialMediaService.init !! "facebook")
      with (Some FacebookService.service) by reflexivity.
    cbn [Adapter.schedule_media FacebookService.service snd].
    unfold FacebookService.schedule_media,
      FacebookService.schedule_media_run.
    destruct (timestamp when) as [stamp | e]; [| discriminate].
    repeat split; reflexivity. }
  apply elem_of_cons in Hin as [-> | Hin]; [repeat split; reflexivity |].
  by apply elem_of_nil in Hin.
Qed.

(** X19. A schedule request for a platform outside the four names reaches no
    service, is answered with an error and stores nothing. *)
Theorem schedule_unsupported_rejected platform path md tok when clock db
    data :
  platform ∉ Spec.supported_platforms ->
  su_platform data = Some platform ->
  schedule_upload SocialMediaService.init platform path md tok when
    = ([], unsupported platform) ∧
  (schedule_platform_upload SocialMediaService.init clock db data).1 = db ∧
  is_error (schedule_platform_upload SocialMediaService.init clock db data).2 = true.
Proof.
  intros Hout Hdata.
  pose proof (init_lookup_unsupported _ Hout) as Hnone.
  split; [unfold schedule_upload; by rewrite Hnone |].
  unfold schedule_platform_upload. rewrite Hdata. cbn [from_option id].
  destruct (negb _); [done |].
  destruct (media_files db !! _) as [media_file |]; [| done].
  destruct (fromisoformat _) as [parsed | e]; [| done].
  unfold schedule_upload. rewrite Hnone. cbn [snd].
  by rewrite unsupported_not_success.
Qed.

(** X20. The status route passes the dispatcher's refusal on with status 200,
    where the upload route answers the same refusal with 400. *)
Theorem unsupported_status_200_upload_400 clock db file_id media_file
    platform upload_id tok md :
  platform ∉ Spec.supported_platforms -> platform ≠ "" -> tok ≠ "" ->
  file_id ≠ 0 -> media_files db !! file_id = Some media_file ->
  MediaRoutes.get_upload_status SocialMediaService.init platform upload_id (Some tok)
    = Json 200 (PyDict (unsupported platform)) ∧
  (Routes.upload_to_platform SocialMediaService.init clock db
     {| up_media_file_id := Some file_id; up_platform := Some platform;
        up_access_token := Some tok; up_metadata := md |}).2
    = Json 400 (PyDict (unsupported platform)).
Proof.
  intros Hout Hp Htok Hid Hmf.
  pose proof (init_lookup_unsupported _ Hout) as Hnone. split.
  - unfold MediaRoutes.get_upload_status, get_upload_status.
    rewrite (opt_truthy_str_Some _ Htok). cbn [negb from_option id].
    by rewrite Hnone.
  - unfold Routes.upload_to_platform.
    cbn [up_media_file_id up_platform up_access_token up_metadata
         from_option id].
    rewrite (opt_truthy_Z_Some _ Hid), (opt_truthy_str_Some _ Hp),
      (opt_truthy_str_Some _ Htok), Hmf.
    cbn [andb negb]. rewrite (upload_to_platform_absent _ _ _ _ _ Hnone).
    cbn [snd]. by rewrite unsupported_not_success.
Qed.

End Results.

(** ** Substrings *)

Section Substrings.

Lemma contains_unfold sub s :
  PyText.contains sub s
  = PyText.starts_with sub s ||
    match s with
    | EmptyString => false
    | String _ s' => PyText.contains sub s'
    end.
Proof. by destruct s. Qed.

Lemma starts_with_app sub post : PyText.starts_with sub (sub +:+ post) = true.
Proof.
  induction sub as [| c sub IH]; [reflexivity |].
  rewrite append_cons. cbn. by rewrite Ascii.eqb_refl, IH.
Qed.

Lemma starts_with_inv sub s :
  PyText.starts_with sub s = true -> ∃ post, s = sub +:+ post.
Proof.
  revert s; induction sub as [| c sub IH]; intros s; [by exists s |].
  destruct s as [| b s]; [discriminate |]. cbn.
  intros [->%Ascii.eqb_eq [post ->]%IH]%andb_true_iff. by exists post.
Qed.

(** [sub in s] holds exactly when [s] is some text, [sub], and some
    text. *)
Lemma contains_iff sub s :
  PyText.contains sub s = true <-> ∃ pre post, s = pre +:+ sub +:+ post.
Proof.
  split.
  - induction s as [| c s IH]; rewrite contains_unfold.
    + rewrite orb_false_r. intros [post ->]%starts_with_inv. by exists "", post.
    + intros [[post ->]%starts_with_inv | (pre & post & ->)%IH]%orb_true_iff;
        [by exists "", post | by exists (String c pre), post].
  - intros (pre & post & ->). induction pre as [| c pre IH].
    + rewrite contains_unfold.
      change ("" +:+ sub +:+ post) with (sub +:+ post).
      by rewrite starts_with_app.
    + rewrite append_cons, contains_unfold, IH. apply orb_true_r.
Qed.

Lemma lower_app a b : Py.lower (a +:+ b) = Py.lower a +:+ Py.lower b.
Proof.
  induction a as [| c a IH]; [reflexivity |].
  rewrite append_cons. cbn [Py.lower]. by rewrite IH.
Qed.

End Substrings.

(** ** The fallbacks of the AI service *)

Section Fallbacks.

Context `{rt : Runtime}.

(** Without an API key, or when the text-generation call raises, content
    generation answers with the template content: the response and the
    decoder play no part. *)
Theorem content_falls_back_to_template self response media_info platform
    custom_prompt :
  AIService.has_key self = false ∨ (∃ e, response = Raise e) ->
  AIService.generate_social_media_content self response media_info platform
    custom_prompt
  = AIService._get_mock_social_content media_info platform.
Proof.
  unfold AIService.generate_social_media_content.
  intros [-> | [e ->]]; [reflexivity |].
  by destruct (AIService.has_key self).
Qed.

(** X21. The template content has the same shape for every platform string: a
    caption that names the file type of the media, five hashtags and a
    time hint. *)
Theorem template_content_shape media_info platform :
  ∃ caption hashtags suggested_time,
    AIService._get_mock_social_content media_info platform
      = AIService.content caption hashtags suggested_time ∧
    length hashtags = 5%nat ∧
    PyText.contains
      (py_str (Py.get_default media_info "file_type" (PyStr "media")))
      caption = true.
Proof.
  unfold AIService._get_mock_social_content. cbn zeta.
  set (file_type := py_str _).
  destruct (decide (lower_text platform = "youtube")) as [-> | H1];
    [eexists _, _, _; split; [reflexivity |]; split; [reflexivity |];
     apply contains_iff; by eexists _, _ |].
  destruct (decide (lower_text platform = "instagram")) as [-> | H2];
    [eexists _, _, _; split; [reflexivity |]; split; [reflexivity |];
     apply contains_iff; by eexists _, _ |].
  destruct (decide (lower_text platform = "facebook")) as [-> | H3];
    [eexists _, _, _; split; [reflexivity |]; split; [reflexivity |];
     apply contains_iff; by eexists _, _ |].
  destruct (decide (lower_text platform = "tiktok")) as [-> | H4];
    [eexists _, _, _; split; [reflexivity |]; split; [reflexivity |];
     apply contains_iff; by eexists _, _ |].
  cbn [list_to_map foldr uncurry fst snd].
  rewrite !lookup_insert_ne by done. rewrite lookup_empty.
  eexists _, _, _; split; [reflexivity |]; split; [reflexivity |].
  apply contains_iff; by eexists _, _.
Qed.

(** X22. The template answer of the chatbot greets whenever the message holds
    the letters of [hi] or [hello] in a row, in any case and anywhere,
    inside a word included, whatever else the message asks. *)
Theorem greeting_on_hi_inside pre word post :
  Py.lower word = "hi" ∨ Py.lower word = "hello" ->
  AIChat._get_mock_response (pre +:+ word +:+ post) = AIChat.greeting.
Proof.
  intros Hword. unfold AIChat._get_mock_response. cbn zeta.
  rewrite !lower_app.
  assert (Hhit :
    PyText.contains "hello"
      (Py.lower pre +:+ Py.lower word +:+ Py.lower post)
    || PyText.contains "hi"
      (Py.lower pre +:+ Py.lower word +:+ Py.lower post) = true).
  { destruct Hword as [-> | ->]; apply orb_true_iff; [right | left];
      apply contains_iff; by eexists _, _. }
  by rewrite Hhit.
Qed.

(** X23. Without an API key, or when the chat call raises, the chatbot answers
    with its template answer for the message alone, which is never
    empty; the conversation history plays no part. *)
Theorem chat_falls_back_to_template self response message history :
  AIService.has_key self = false ∨ (∃ e, response = Raise e) ->
  AIChat.get_chat_response self response message history
    = AIChat._get_mock_response message ∧
  AIChat._get_mock_response message ≠ "".
Proof.
  intros Hfail. split.
  - unfold AIChat.get_chat_response.
    destruct Hfail as [-> | [e ->]]; [reflexivity |].
    by destruct (AIService.has_key self).
  - unfold AIChat._get_mock_response. cbn zeta.
    repeat (match goal with
            | |- context [if ?b then _ else _] => destruct b
            end; [discriminate |]).
    discriminate.
Qed.

End Fallbacks.

(** ** Worked instances of the further properties *)

Section FurtherInstances.

#[local] Existing Instance example_runtime_iso.

Import Routes.


Lemma schedule_post_creates_witness :
  let platforms := ["YouTube"; "myspace"] in
  let time := "2024-05-01T19:00:00Z" in
  let when := datetime.mk 739007 19 0 0 0 in
  (7 ≠ 0 ∧ 7 ∈ users example_db ∧ 1 ≠ 0 ∧
   media_files example_db !! 1 = Some example_media ∧
   mf_user_id example_media = 7 ∧ platforms ≠ [] ∧ time ≠ "" ∧
   text_value (Some (PyStr "Holiday")) = true ∧ text_value None = true ∧
   hashtags_value (Some (PyList [PyStr "#beach"])) = true ∧
   fromisoformat (Py.replace_char "Z" "+00:00" time) = Return when) ∧
  let data := {| sp_user_id := Some 7; sp_media_file_id := Some 1;
                 sp_platforms := platforms;
                 sp_title := Some (PyStr "Holiday");
                 sp_description := None;
                 sp_hashtags := Some (PyList [PyStr "#beach"]);
                 sp_scheduled_time := Some time |} in
  let db' := (schedule_post example_clock example_db data).1 in
  (∃ body, (schedule_post example_clock example_db data).2 = Json 201 body) ∧
  posts example_db ⊆ posts db' ∧
  size (posts db') = (size (posts example_db) + length platforms)%nat ∧
  Forall (fun name =>
    ∃ id p,
      posts db' !! id = Some p ∧ posts example_db !! id = None ∧
      platform p = lower_text name ∧
      (Py.is_ascii name = true -> platform p = Py.lower name) ∧
      status p = "scheduled" ∧
      scheduled_time p = when ∧ user_id p = 7 ∧
      media_file_id p = 1)
    platforms.
Proof.
  intros platforms time when.
  assert (H1 : 7 ≠ 0) by lia.
  assert (H2 : 7 ∈ users example_db)
    by (unfold example_db; cbn [users]; apply elem_of_singleton_2;
        reflexivity).
  assert (H3 : 1 ≠ 0) by lia.
  assert (H4 : media_files example_db !! 1 = Some example_media)
    by reflexivity.
  assert (H5 : mf_user_id example_media = 7) by reflexivity.
  assert (H6 : platforms ≠ []) by discriminate.
  assert (H7 : time ≠ "") by discriminate.
  assert (H8 : text_value (Some (PyStr "Holiday")) = true) by reflexivity.
  assert (H9 : text_value None = true) by reflexivity.
  assert (H10 : hashtags_value (Some (PyList [PyStr "#beach"])) = true)
    by reflexivity.
  assert (H11 : fromisoformat (Py.replace_char "Z" "+00:00" time)
                = Return when) by reflexivity.
  split;
    [by repeat split
    | apply (schedule_post_creates example_clock example_db 7 1 example_media
               platforms (Some (PyStr "Holiday")) None
               (Some (PyList [PyStr "#beach"])) time when
               H1 H2 H3 H4 H5 H6 H7 H8 H9 H10 H11)].
Defined.

Lemma cancel_twice_refused_witness :
  (posts example_db !! 1 = Some example_post ∧
   status example_post = "scheduled") ∧
  cancel_post example_clock (cancel_post example_clock example_db 1).1 1
  = ((cancel_post example_clock example_db 1).1,
     Json 400 (error_body "Can only cancel scheduled posts")).
Proof.
  assert (H1 : posts example_db !! 1 = Some example_post) by reflexivity.
  assert (H2 : status example_post = "scheduled") by reflexivity.
  split;
    [by split
    | apply (cancel_twice_refused example_clock example_clock example_db 1
               example_post H1 H2)].
Defined.

Lemma delete_media_file_cascades_witness :
  media_files example_db !! 1 = Some example_media ∧
  let db' := (delete_media_file (Return tt) example_db 1).1 in
  (delete_media_file (Return tt) example_db 1).2 = Empty 204 ∧
  media_files db' !! 1 = None ∧
  (∀ other, other ≠ 1 ->
     media_files db' !! other = media_files example_db !! other) ∧
  (∀ id p, posts db' !! id = Some p <->
     posts example_db !! id = Some p ∧ media_file_id p ≠ 1) ∧
  users db' = users example_db.
Proof.
  assert (H : media_files example_db !! 1 = Some example_media)
    by reflexivity.
  split;
    [exact H
    | apply (delete_media_file_cascades example_db 1 example_media H)].
Defined.

Lemma status_echoes_upload_id_witness :
  "instagram" ∈ Spec.supported_platforms ∧
  SocialMediaService.get_upload_status SocialMediaService.init "instagram"
    "17895695668004550" "token"
  = ([SocialMediaService.GetStatus "instagram"],
     mkdict [("success", PyBool true); ("platform", PyStr "instagram");
             ("status", PyStr "completed");
             ("upload_id", PyStr "17895695668004550")]).
Proof.
  assert (H : "instagram" ∈ Spec.supported_platforms)
    by (unfold Spec.supported_platforms; apply list_elem_of_further,
          list_elem_of_here).
  split;
    [exact H
    | apply (status_echoes_upload_id "instagram" "17895695668004550" "token"
               H)].
Defined.

Lemma schedule_upload_token_not_stored_witness :
  let time := "2024-05-01T19:00:00Z" in
  let when := datetime.mk 739007 19 0 0 0 in
  (1 ≠ 0 ∧ "token" ≠ "" ∧ time ≠ "" ∧
   media_files example_db !! 1 = Some example_media ∧
   "facebook" ∈ Spec.supported_platforms ∧
   fromisoformat (Py.replace_char "Z" "+00:00" time) = Return when ∧
   ("facebook" = "facebook" -> returned (timestamp when) = true)) ∧
  let data := {| su_media_file_id := Some 1;
                 su_platform := Some "facebook";
                 su_access_token := Some "token"; su_metadata := None;
                 su_scheduled_time := Some time |} in
  let result :=
    (SocialMediaService.schedule_upload SocialMediaService.init "facebook"
       (file_path example_media) (metadata_of None) "token" when).2 in
  result !! "success" = Some (PyBool true) ∧
  result !! "scheduled_id"
    = Some (PyStr ("mock_" +:+ "facebook" +:+ "_scheduled_id")) ∧
  (list_to_map
     (scheduled_upload_kwargs example_media 1 "facebook" (metadata_of None)
        result when) : gmap string Val) !! "platform_post_id"
    = Some (VPy (PyStr ("mock_" +:+ "facebook" +:+ "_scheduled_id"))) ∧
  schedule_platform_upload SocialMediaService.init example_clock example_db
    data
  = (example_db,
     Json 500 (error_body
       "Scheduling failed: 'platform_post_id' is an invalid keyword argument for SocialMediaPost")).
Proof.
  intros time when.
  assert (H1 : 1 ≠ 0) by lia.
  assert (H2 : "token" ≠ "") by discriminate.
  assert (H3 : time ≠ "") by discriminate.
  assert (H4 : media_files example_db !! 1 = Some example_media)
    by reflexivity.
  assert (H5 : "facebook" ∈ Spec.supported_platforms)
    by (unfold Spec.supported_platforms;
        do 2 apply list_elem_of_further; apply list_elem_of_here).
  assert (H6 : fromisoformat (Py.replace_char "Z" "+00:00" time)
               = Return when) by reflexivity.
  assert (H7 : "facebook" = "facebook" -> returned (timestamp when) = true)
    by (intros _; reflexivity).
  split;
    [by repeat split
    | apply (schedule_upload_token_not_stored example_clock example_db 1
               example_media "facebook" "token" None time when
               H1 H2 H3 H4 H5 H6 H7)].
Defined.

Lemma schedule_unsupported_rejected_witness :
  let data := {| su_media_file_id := Some 1; su_platform := Some "TikTok";
                 su_access_token := Some "token"; su_metadata := None;
                 su_scheduled_time := Some "2024-05-01T19:00:00Z" |} in
  (("TikTok" ∉ Spec.supported_platforms) ∧
   su_platform data = Some "TikTok") ∧
  (SocialMediaService.schedule_upload SocialMediaService.init "TikTok"
     (file_path example_media) ∅ "token" (datetime.mk 739007 19 0 0 0)
   = ([], SocialMediaService.unsupported "TikTok") ∧
   (schedule_platform_upload SocialMediaService.init example_clock example_db
      data).1 = example_db ∧
   is_error (schedule_platform_upload SocialMediaService.init example_clock
               example_db data).2 = true).
Proof.
  intros data.
  assert (H1 : "TikTok" ∉ Spec.supported_platforms)
    by (unfold Spec.supported_platforms; rewrite !not_elem_of_cons;
        repeat split; try discriminate; apply not_elem_of_nil).
  assert (H2 : su_platform data = Some "TikTok") by reflexivity.
  split;
    [by split
    | apply (schedule_unsupported_rejected "TikTok"
               (file_path example_media) ∅ "token"
               (datetime.mk 739007 19 0 0 0) example_clock example_db data
               H1 H2)].
Defined.

Lemma unsupported_status_200_upload_400_witness :
  (("myspace" ∉ Spec.supported_platforms) ∧ "myspace" ≠ "" ∧ "token" ≠ "" ∧
   1 ≠ 0 ∧ media_files example_db !! 1 = Some example_media) ∧
  (MediaRoutes.get_upload_status SocialMediaService.init "myspace" "42"
     (Some "token")
   = Json 200 (PyDict (SocialMediaService.unsupported "myspace")) ∧
   (Routes.upload_to_platform SocialMediaService.init example_clock example_db
      {| up_media_file_id := Some 1; up_platform := Some "myspace";
         up_access_token := Some "token"; up_metadata := None |}).2
   = Json 400 (PyDict (SocialMediaService.unsupported "myspace"))).
Proof.
  assert (H1 : "myspace" ∉ Spec.supported_platforms)
    by (unfold Spec.supported_platforms; rewrite !not_elem_of_cons;
        repeat split; try discriminate; apply not_elem_of_nil).
  assert (H2 : "myspace" ≠ "") by discriminate.
  assert (H3 : "token" ≠ "") by discriminate.
  assert (H4 : 1 ≠ 0) by lia.
  assert (H5 : media_files example_db !! 1 = Some example_media)
    by reflexivity.
  split;
    [by repeat split
    | apply (unsupported_status_200_upload_400 example_clock example_db 1
               example_media "myspace" "42" "token" None
               H1 H2 H3 H4 H5)].
Defined.

Lemma content_falls_back_to_template_witness :
  let self := AIService.mk None in
  let response : Outcome string := Return "{}" in
  (AIService.has_key self = false ∨ (∃ e, response = Raise e)) ∧
  AIService.generate_social_media_content self response ∅ "TikTok" ""
  = AIService._get_mock_social_content ∅ "TikTok".
Proof.
  intros self response.
  assert (H : AIService.has_key self = false ∨ (∃ e, response = Raise e))
    by (left; reflexivity).
  split;
    [exact H
    | apply (content_falls_back_to_template self response ∅ "TikTok" "" H)].
Defined.

Lemma greeting_on_hi_inside_witness :
  (Py.lower "hi" = "hi" ∨ Py.lower "hi" = "hello") ∧
  AIChat._get_mock_response ("Thanks, t" +:+ "hi" +:+ "s upload worked")
  = AIChat.greeting.
Proof.
  assert (H : Py.lower "hi" = "hi" ∨ Py.lower "hi" = "hello")
    by (left; reflexivity).
  split;
    [exact H
    | apply (greeting_on_hi_inside "Thanks, t" "hi" "s upload worked" H)].
Defined.

Lemma chat_falls_back_to_template_witness :
  let self := AIService.mk (Some "sk-example") in
  let response : Outcome string := Raise "Connection error." in
  (AIService.has_key self = false ∨ (∃ e, response = Raise e)) ∧
  (AIChat.get_chat_response self response "How do I upload?" []
   = AIChat._get_mock_response "How do I upload?" ∧
   AIChat._get_mock_response "How do I upload?" ≠ "").
Proof.
  intros self response.
  assert (H : AIService.has_key self = false ∨ (∃ e, response = Raise e))
    by (right; by eexists).
  split;
    [exact H
    | apply (chat_falls_back_to_template self response "How do I upload?" []
               H)].
Defined.

End FurtherInstances.
